(** * Reserve Manager: the allocation, rebalancing and forecasting engine

    A shallow embedding of [reserve_manager.py] (classes [Account], [Tier]
    and [Plan]) together with the properties of the engine.

    Numbers.  The program computes with Python floats.  The file has two
    embeddings of the engine.  In the first a float is an exact rational
    [Q]: [+], [-], [*], [/] and [**] are the exact operations, comparisons
    are the comparisons of [Q], [round(x, 2)] is rounding to the nearest
    hundredth, ties to the even hundredth, and [float("inf")] in
    [Account.remaining_room] is a separate constructor.  It carries the
    properties that do not depend on how a float rounds: the structure of
    the results, bounds that rest on the monotonicity of [min], [-] and
    [round], and everything about names, persistence and the commands.
    The second embedding, module [F64], computes in IEEE 754 binary64 as
    the program does; it carries the properties that rounding decides:
    whether a loop ends, which exception is raised, what is taken off a
    pool, whether a power overflows. *)

From Stdlib Require Import ZArith QArith Qround Lqa Lia Bool List Sorted Permutation.
From Stdlib Require Floats.
From stdpp Require Import base list strings gmap.
Import ListNotations.

Local Open Scope Q_scope.

Module Py.

(** What a call can do besides returning: raise, or (in this model of the
    [while] loops) use up the steps it was given. *)
Inductive exn := StopIteration | KeyError.

Inductive result (A : Type) :=
| Ok (a : A)
| Raise (e : exn)
| OutOfFuel.
Arguments Ok {A} a.
Arguments Raise {A} e.
Arguments OutOfFuel {A}.

Definition bind {A B} (r : result A) (k : A -> result B) : result B :=
  match r with
  | Ok a => k a
  | Raise e => Raise e
  | OutOfFuel => OutOfFuel
  end.

(** [x < y] and [x <= y] on floats. *)
Definition ltb (x y : Q) : bool := (Qnum x * QDen y <? Qnum y * QDen x)%Z.
Definition leb (x y : Q) : bool := (Qnum x * QDen y <=? Qnum y * QDen x)%Z.

(** [max(a, b)] keeps [a] unless [b] is strictly larger; [min(a, b)] keeps
    [a] unless [b] is strictly smaller. *)
Definition max (a b : Q) : Q := if ltb a b then b else a.
Definition min (a b : Q) : Q := if ltb b a then b else a.

(** [sum(xs)]: starts from 0 and adds from the left. *)
Definition sum (xs : list Q) : Q := fold_left Qplus xs 0.

(** Nearest integer, ties to even. *)
Definition round_half_even (q : Q) : Z :=
  let f := Qfloor q in
  match Qcompare (q - inject_Z f) (1 # 2) with
  | Lt => f
  | Gt => (f + 1)%Z
  | Eq => if Z.even f then f else (f + 1)%Z
  end.

(** [round(x, 2)]. *)
Definition round2 (q : Q) : Q := round_half_even (q * 100) # 100.

(** A float or [float("inf")]. *)
Inductive ext := Fin (q : Q) | Inf.

(** [e > 0] *)
Definition ext_pos (e : ext) : bool :=
  match e with Fin q => ltb 0 q | Inf => true end.

(** [min(x, e)] for a finite [x]. *)
Definition min_ext (x : Q) (e : ext) : Q :=
  match e with Fin q => min x q | Inf => x end.

(** [sub in s] on strings. *)
Fixpoint contains (sub s : string) : bool :=
  String.prefix sub s
  || match s with
     | EmptyString => false
     | String _ s' => contains sub s'
     end.

(** Truth value of a string, and of an optional string ([None] is false). *)
Definition truthy_str (s : string) : bool :=
  match s with EmptyString => false | _ => true end.

Definition truthy_opt_str (o : option string) : bool :=
  match o with None => false | Some s => truthy_str s end.

(** [x or d] for an optional float: [None] and [0.0] are false. *)
Definition or_else (o : option Q) (d : Q) : Q :=
  match o with
  | None => d
  | Some x => if Qeq_bool x 0 then d else x
  end.

End Py.

Import Py.

Module Account.

Record t := mk {
  name : string;
  balance : Q;
  apy_pct : Q;
  notes : string;
  alloc_weight : Q;
  account_target : option Q
}.

Definition remaining_room (self : t) : ext :=
  match account_target self with
  | None => Inf
  | Some tgt => Fin (Py.max 0 (tgt - balance self))
  end.

End Account.

(** An account-level move [(account_name, amount)]. *)
Definition move : Type := string * Q.

Module Tier.

Record t := mk {
  name : string;
  purpose : string;
  target : Q;
  priority : Z;
  accounts : list Account.t;
  preferred_account : option string
}.

Definition total (self : t) : Q :=
  Py.sum (map Account.balance (accounts self)).

Definition gap (self : t) : Q := Py.max 0 (target self - total self).

(** The loop of [add_or_update_account] over [self.accounts]: the first
    account called [name] is updated in place; [None] when there is none. *)
Fixpoint update_first (name : string) (balance : Q) (apy_pct : option Q)
    (notes : string) (alloc_weight account_target : option Q)
    (accs : list Account.t) : option (list Account.t) :=
  match accs with
  | [] => None
  | a :: rest =>
      if String.eqb (Account.name a) name then
        let a1 := Account.mk (Account.name a) balance
                    (match apy_pct with Some x => x | None => Account.apy_pct a end)
                    (if truthy_str notes then notes else Account.notes a)
                    (match alloc_weight with Some w => w | None => Account.alloc_weight a end)
                    (match account_target with
                     | Some c => Some c
                     | None => Account.account_target a
                     end) in
        Some (a1 :: rest)
      else
        match update_first name balance apy_pct notes alloc_weight
                account_target rest with
        | Some rest' => Some (a :: rest')
        | None => None
        end
  end.

Definition set_accounts (self : t) (accs : list Account.t) : t :=
  mk (name self) (purpose self) (target self) (priority self) accs
     (preferred_account self).

(** [add_or_update_account] mutates [self]; the new state is returned. *)
Definition add_or_update_account (self : t) (name : string) (balance : Q)
    (apy_pct : option Q) (notes : string)
    (alloc_weight account_target : option Q) : t :=
  match update_first name balance apy_pct notes alloc_weight account_target
          (accounts self) with
  | Some accs => set_accounts self accs
  | None =>
      set_accounts self
        (accounts self ++
           [Account.mk name balance (or_else apy_pct 0) notes
              (or_else alloc_weight 1) account_target])
  end.

(** [set_preferred]: the new state, or [KeyError]. *)
Definition set_preferred (self : t) (account_name : option string)
  : result t :=
  match account_name with
  | None =>
      Ok (mk (name self) (purpose self) (target self) (priority self)
            (accounts self) None)
  | Some n =>
      if existsb (fun a => String.eqb (Account.name a) n) (accounts self)
      then Ok (mk (name self) (purpose self) (target self) (priority self)
                 (accounts self) (Some n))
      else Raise KeyError
  end.

(** [a.remaining_room > 0] and [max(0.0, a.alloc_weight)]. *)
Definition has_room (a : Account.t) : bool :=
  ext_pos (Account.remaining_room a).

Definition weight (a : Account.t) : Q := Py.max 0 (Account.alloc_weight a).

(** The preferred-account block of [allocate_into_accounts]: the moves and
    the remaining amount after it.  [next] over a generator with no match
    raises [StopIteration]. *)
Definition preferred_step (self : t) (remaining : Q)
  : result (list move * Q) :=
  if truthy_opt_str (preferred_account self) then
    match List.find
            (fun a => match preferred_account self with
                      | Some p => String.eqb (Account.name a) p
                      | None => false
                      end) (accounts self) with
    | None => Raise StopIteration
    | Some pa =>
        let room := Account.remaining_room pa in
        if ext_pos room then
          let add := min_ext remaining room in
          if ltb 0 add
          then Ok ([(Account.name pa, round2 add)], remaining - add)
          else Ok ([], remaining)
        else Ok ([], remaining)
    end
  else Ok ([], remaining).

(** One run of [for a in candidates] inside the [while] loop. *)
Fixpoint weighted_pass (cands : list Account.t) (total_w remaining : Q)
    (moves : list move) (progressed : bool) : list move * Q * bool :=
  match cands with
  | [] => (moves, remaining, progressed)
  | a :: rest =>
      let share := remaining * (weight a / total_w) in
      let add := round2 (min_ext share (Account.remaining_room a)) in
      if ltb 0 add
      then weighted_pass rest total_w (remaining - add)
             (moves ++ [(Account.name a, add)]) true
      else weighted_pass rest total_w remaining moves progressed
  end.

(** The [while remaining > 0] loop; each turn of the loop uses one unit of
    [fuel]. *)
Fixpoint distribute (fuel : nat) (self : t) (remaining : Q)
    (moves : list move) : result (list move) :=
  match fuel with
  | O => OutOfFuel
  | S fuel' =>
      if ltb 0 remaining then
        let candidates := List.filter has_room (accounts self) in
        match candidates with
        | [] => Ok moves
        | a :: _ =>
            let total_w := Py.sum (map weight candidates) in
            if leb total_w 0 then
              let add := min_ext remaining (Account.remaining_room a) in
              Ok (moves ++ [(Account.name a, round2 add)])
            else
              let '(moves', remaining', progressed) :=
                weighted_pass candidates total_w remaining moves false in
              if progressed
              then distribute fuel' self remaining' moves'
              else Ok moves'
        end
      else Ok moves
  end.

(** Turns of the loop that an amount can need: every turn that goes on
    takes at least one hundredth off [remaining]. *)
Definition passes_bound (remaining : Q) : nat :=
  S (Z.to_nat (Qceiling (remaining * 100))).

Definition allocate_into_accounts (self : t) (amount : Q)
  : result (list move) :=
  let remaining := Py.max 0 amount in
  if leb remaining 0 || match accounts self with [] => true | _ => false end
  then Ok []
  else
    bind (preferred_step self remaining) (fun '(moves, remaining) =>
      distribute (passes_bound remaining) self remaining moves).

End Tier.

Module Plan.

Record t := mk {
  tiers : list Tier.t;
  last_updated : string
}.

(** [sorted(self.tiers, key=lambda t: t.priority)]: a stable sort, here by
    insertion; a tier goes in front of the first tier whose priority is
    not smaller, so tiers of equal priority keep their order. *)
Fixpoint insert_by_priority (x : Tier.t) (l : list Tier.t) : list Tier.t :=
  match l with
  | [] => [x]
  | y :: l' =>
      if (Tier.priority x <=? Tier.priority y)%Z
      then x :: y :: l'
      else y :: insert_by_priority x l'
  end.

Definition sort_by_priority (l : list Tier.t) : list Tier.t :=
  fold_right insert_by_priority [] l.

Definition sorted_by_priority (self : t) : list Tier.t :=
  sort_by_priority (tiers self).

(** The [for tier in self.sorted_by_priority()] loop of [allocation_plan]:
    the moves and what remains of the cash. *)
Fixpoint fill (ts : list Tier.t) (remaining : Q) (moves : list move)
  : list move * Q :=
  match ts with
  | [] => (moves, remaining)
  | tier :: rest =>
      if leb remaining 0 then (moves, remaining)
      else
        let need := Tier.gap tier in
        if leb need 0 then fill rest remaining moves
        else
          let amt := Py.min remaining need in
          if ltb 0 amt
          then fill rest (remaining - amt)
                 (moves ++ [(Tier.name tier, round2 amt)])
          else fill rest remaining moves
  end.

(** The tier that takes what is left over. *)
Definition is_growth (t : Tier.t) : bool :=
  contains "Tier 4" (Tier.name t) || contains "Growth" (Tier.purpose t).

Definition growth_tier (self : t) : option Tier.t :=
  List.find is_growth (sorted_by_priority self).

Definition allocation_plan (self : t) (new_cash : Q) : list move :=
  let '(moves, remaining) :=
    fill (sorted_by_priority self) (Py.max 0 new_cash) [] in
  if ltb 0 remaining then
    match growth_tier self with
    | Some growth => moves ++ [(Tier.name growth, round2 remaining)]
    | None => moves
    end
  else moves.

(** A detailed move [(tier, account, amount)]. *)
Definition dmove : Type := string * string * Q.

(** [for acc_name, acc_amt in splits: moves.append(...)]. *)
Definition record_splits (tier : Tier.t) (splits : list move)
    (moves : list dmove) : list dmove :=
  moves ++ map (fun s => (Tier.name tier, fst s, round2 (snd s))) splits.

(** The splits of one tier, with the fallback to its first account. *)
Definition splits_or_first (tier : Tier.t) (amt : Q) : result (list move) :=
  bind (Tier.allocate_into_accounts tier amt) (fun splits =>
    match splits, Tier.accounts tier with
    | [], a :: _ => Ok [(Account.name a, round2 amt)]
    | _, _ => Ok splits
    end).

Fixpoint fill_detailed (ts : list Tier.t) (remaining : Q)
    (moves : list dmove) : result (list dmove * Q) :=
  match ts with
  | [] => Ok (moves, remaining)
  | tier :: rest =>
      if leb remaining 0 then Ok (moves, remaining)
      else
        let need := Tier.gap tier in
        if leb need 0 then fill_detailed rest remaining moves
        else
          let amt := Py.min remaining need in
          if ltb 0 amt then
            bind (splits_or_first tier amt) (fun splits =>
              fill_detailed rest (remaining - amt)
                (record_splits tier splits moves))
          else fill_detailed rest remaining moves
  end.

Definition allocation_plan_detailed (self : t) (new_cash : Q)
  : result (list dmove) :=
  bind (fill_detailed (sorted_by_priority self) (Py.max 0 new_cash) [])
    (fun '(moves, remaining) =>
       if ltb 0 remaining then
         match growth_tier self with
         | Some growth =>
             bind (splits_or_first growth remaining) (fun splits =>
               Ok (record_splits growth splits moves))
         | None => Ok moves
         end
       else Ok moves).

(** [by_name]: the first tier of that name, or [KeyError]. *)
Definition by_name (self : t) (name : string) : result Tier.t :=
  match List.find (fun t => String.eqb (Tier.name t) name) (tiers self) with
  | Some t => Ok t
  | None => Raise KeyError
  end.

(** [totals]: the dict comprehension [{t.name: t.total for t in self.tiers}]. *)
Definition totals (self : t) : gmap string Q :=
  fold_left (fun d t => <[Tier.name t := Tier.total t]> d) (tiers self) ∅.

(** [total_reserves] *)
Definition total_reserves (self : t) : Q :=
  Py.sum (map Tier.total (tiers self)).

End Plan.

(* ------------------------------------------------------------------ *)
(** ** Amounts in whole cents *)


(** The tier a name stands for in a plan: the last one of that name. *)
Fixpoint last_named (n : string) (ts : list Tier.t) : option Tier.t :=
  match ts with
  | [] => None
  | t :: rest =>
      match last_named n rest with
      | Some u => Some u
      | None => if String.eqb (Tier.name t) n then Some t else None
      end
  end.

(** The account that an update leaves in place of [a]. *)
Definition patched (a : Account.t) (balance : Q) (apy_pct : option Q)
    (notes : string) (alloc_weight account_target : option Q) : Account.t :=
  Account.mk (Account.name a) balance
    (default (Account.apy_pct a) apy_pct)
    (if truthy_str notes then notes else Account.notes a)
    (default (Account.alloc_weight a) alloc_weight)
    (match account_target with
     | Some c => Some c
     | None => Account.account_target a
     end).

(** A tier with one account, for the examples on upsert. *)
Definition T0 : Tier.t :=
  Tier.mk "Tier 1" "Buffer" 100 1
    [Account.mk "Checking" 10 (1 # 2) "old" 1 None] None.

(** The amounts of a list of moves. *)
Definition amounts (moves : list move) : list Q := map snd moves.

(** [preferred_account] is unset (or empty), or names an account of the tier:
    what [set_preferred] maintains. *)
Definition preferred_ok (t : Tier.t) : bool :=
  match Tier.preferred_account t with
  | None => true
  | Some p =>
      negb (truthy_str p)
      || existsb (fun a => String.eqb (Account.name a) p) (Tier.accounts t)
  end.

(** A tier whose preferred account is not among its accounts. *)
Definition dangling_tier : Tier.t :=
  Tier.mk "Tier 1" "Buffer" 100 1
    [Account.mk "Checking" 0 0 "" 1 None] (Some "Savings"%string).

(** A tier whose preferred account has 17/128 of room left. *)
Definition capped_preferred_tier : Tier.t :=
  Tier.mk "Tier 1" "Buffer" 100 1
    [Account.mk "Savings" 0 0 "" 1 (Some (17 # 128));
     Account.mk "Checking" 0 0 "" 1 None]
    (Some "Savings"%string).

(** Three uncapped accounts of equal weight. *)
Definition three_way_tier : Tier.t :=
  Tier.mk "Tier 4" "Growth" 1000 4
    [Account.mk "Bonds" 0 0 "" 1 None;
     Account.mk "Stocks" 0 0 "" 1 None;
     Account.mk "REITs" 0 0 "" 1 None]
    None.

(** ** The waterfall over the tiers

    Both [allocation_plan] and [allocation_plan_detailed] run the same loop
    over the tiers; [waterfall] is that loop with the bookkeeping of the
    moves left out: the tiers that get cash with the amount [amt] assigned to
    each, and the cash left at the end.  [fill_is_waterfall] and
    [fill_detailed_is_waterfall] relate it to the two loops. *)
Fixpoint waterfall (ts : list Tier.t) (remaining : Q)
  : list (Tier.t * Q) * Q :=
  match ts with
  | [] => ([], remaining)
  | tier :: rest =>
      if leb remaining 0 then ([], remaining)
      else
        let need := Tier.gap tier in
        if leb need 0 then waterfall rest remaining
        else
          let amt := Py.min remaining need in
          if ltb 0 amt then
            let '(l, r) := waterfall rest (remaining - amt) in
            ((tier, amt) :: l, r)
          else waterfall rest remaining
  end.

(** The tier-level move of an assignment. *)
Definition tier_move (e : Tier.t * Q) : move :=
  (Tier.name (fst e), round2 (snd e)).

(** The account-level moves of a list of assignments. *)
Fixpoint detail (es : list (Tier.t * Q)) (moves : list Plan.dmove)
  : result (list Plan.dmove) :=
  match es with
  | [] => Ok moves
  | (tier, amt) :: rest =>
      bind (Plan.splits_or_first tier amt) (fun splits =>
        detail rest (Plan.record_splits tier splits moves))
  end.

(** A plan with one tier, and a plan whose only tier is the growth tier. *)
Definition buffer_plan : Plan.t := Plan.mk [T0] "2024-01-01".

Definition growth_plan : Plan.t := Plan.mk [three_way_tier] "2024-01-01".

(** [sub] occurs in [s]. *)
Definition has_substring (sub s : string) : Prop :=
  exists pre post : string, s = (pre ++ sub ++ post)%string.

(** The tiers that can take the overflow. *)
Definition growth_match (t : Tier.t) : Prop :=
  has_substring "Tier 4" (Tier.name t) \/
  has_substring "Growth" (Tier.purpose t).

(** A plan whose growth tier has no accounts. *)
Definition empty_growth_tier : Tier.t := Tier.mk "Tier 4" "Growth" 0 1 [] None.

Definition empty_growth_plan : Plan.t :=
  Plan.mk [empty_growth_tier] "2024-01-01".

(** Tiers in non-decreasing priority. *)
Definition by_priority (a b : Tier.t) : Prop :=
  (Tier.priority a <= Tier.priority b)%Z.

(** The tiers of priority [k], in the order of the list. *)
Definition of_priority (k : Z) (ts : list Tier.t) : list Tier.t :=
  List.filter (fun t => (Tier.priority t =? k)%Z) ts.

(** The test of the loops over the accounts: the account is called [n]. *)
Definition named (n : string) (a : Account.t) : bool :=
  String.eqb (Account.name a) n.


(** The accounts of a tier that take part in the weighted split. *)
Definition candidates (t : Tier.t) : list Account.t :=
  List.filter Tier.has_room (Tier.accounts t).

(** The overflow move of [allocation_plan] for what is left of the cash. *)
Definition overflow_move (p : Plan.t) (left : Q) : list move :=
  if ltb 0 left then
    match Plan.growth_tier p with
    | Some growth => [(Tier.name growth, round2 left)]
    | None => []
    end
  else [].

(** A plan with one tier above its target and one below. *)
Definition unbalanced_plan : Plan.t :=
  Plan.mk
    [Tier.mk "Tier 1" "Buffer" 100 1
       [Account.mk "Checking" 150 0 "" 1 None] None;
     Tier.mk "Tier 2" "Emergency" 200 2
       [Account.mk "Savings" 120 0 "" 1 None] None]
    "2024-01-01".

(** No two tiers of the plan have the same name. *)
Definition distinct_names (p : Plan.t) : Prop :=
  List.NoDup (map Tier.name (Plan.tiers p)).

(* ------------------------------------------------------------------ *)
(** ** Persistence and the command line

    The plan is kept in a JSON file.  A file holds a document: the JSON
    object that [json.dump] was given and that [json.load] gives back; the
    JSON text itself is not modelled.  In a document every key is absent
    ([None]) or present with a value of the type the dataclasses declare
    for it; a key that holds JSON [null] is present with the value [None].
    The file system is a map from paths to documents; failures of the
    operating system and what the commands print are outside the model.
    [today] stands for [date.today().isoformat()]. *)

Module Doc.

Record account := mk_account {
  a_name : option string;
  a_balance : option Q;
  a_apy_pct : option Q;
  a_notes : option string;
  a_alloc_weight : option Q;
  a_account_target : option (option Q)
}.

Record tier := mk_tier {
  t_name : option string;
  t_purpose : option string;
  t_target : option Q;
  t_priority : option Z;
  t_preferred_account : option (option string);
  t_accounts : option (list account)
}.

Record plan := mk_plan {
  schema_version : option string;
  tiers : option (list tier);
  last_updated : option string
}.

End Doc.

Module Io.

(** What a command can end with besides returning. *)
Inductive error :=
| Raised (e : exn)
| FileNotFoundError
| SystemExit.

Inductive outcome (A : Type) :=
| Done (a : A)
| Failed (e : error)
| Unfinished.
Arguments Done {A} a.
Arguments Failed {A} e.
Arguments Unfinished {A}.

Definition and_then {A B} (r : outcome A) (k : A -> outcome B) : outcome B :=
  match r with
  | Done a => k a
  | Failed e => Failed e
  | Unfinished => Unfinished
  end.

(** A call into the engine. *)
Definition lift {A} (r : result A) : outcome A :=
  match r with
  | Ok a => Done a
  | Raise e => Failed (Raised e)
  | OutOfFuel => Unfinished
  end.

(** [d[key]] and [d.get(key, default)] on a key of a document. *)
Definition item {A} (key : option A) : outcome A :=
  match key with
  | Some v => Done v
  | None => Failed (Raised KeyError)
  end.

Definition get {A} (key : option A) (default : A) : A :=
  match key with
  | Some v => v
  | None => default
  end.

(** A loop that appends [f x] for every [x] of a list. *)
Fixpoint for_each {A B} (f : A -> outcome B) (l : list A) : outcome (list B) :=
  match l with
  | [] => Done []
  | x :: rest =>
      and_then (f x) (fun y =>
        and_then (for_each f rest) (fun ys => Done (y :: ys)))
  end.

(** The files: a document for every path that exists. *)
Definition files : Type := gmap string Doc.plan.

End Io.

Import Io.

Definition CONFIG_FILE : string := "reserve_manager.json".

Module Persist.

Definition load_account (a : Doc.account) : outcome Account.t :=
  and_then (item (Doc.a_name a)) (fun name =>
    Done (Account.mk name
            (get (Doc.a_balance a) 0)
            (get (Doc.a_apy_pct a) 0)
            (get (Doc.a_notes a) "")
            (get (Doc.a_alloc_weight a) 1)
            (get (Doc.a_account_target a) None))).

Definition load_tier (t : Doc.tier) : outcome Tier.t :=
  and_then (for_each load_account (get (Doc.t_accounts t) [])) (fun accounts =>
    and_then (item (Doc.t_name t)) (fun name =>
      and_then (item (Doc.t_purpose t)) (fun purpose =>
        and_then (item (Doc.t_target t)) (fun target =>
          and_then (item (Doc.t_priority t)) (fun priority =>
            Done (Tier.mk name purpose target priority accounts
                    (get (Doc.t_preferred_account t) None))))))).

(** [load_plan] after [json.load]. *)
Definition parse_plan (today : string) (data : Doc.plan) : outcome Plan.t :=
  and_then (item (Doc.tiers data)) (fun ts =>
    and_then (for_each load_tier ts) (fun tiers =>
      Done (Plan.mk tiers (get (Doc.last_updated data) today)))).

Definition load_plan (today path : string) (fs : files) : outcome Plan.t :=
  match fs !! path with
  | None => Failed FileNotFoundError
  | Some data => parse_plan today data
  end.

(** [asdict(a)] *)
Definition asdict (a : Account.t) : Doc.account :=
  Doc.mk_account (Some (Account.name a)) (Some (Account.balance a))
    (Some (Account.apy_pct a)) (Some (Account.notes a))
    (Some (Account.alloc_weight a)) (Some (Account.account_target a)).

Definition tier_payload (t : Tier.t) : Doc.tier :=
  Doc.mk_tier (Some (Tier.name t)) (Some (Tier.purpose t))
    (Some (Tier.target t)) (Some (Tier.priority t))
    (Some (Tier.preferred_account t))
    (Some (map asdict (Tier.accounts t))).

Definition payload (today : string) (plan : Plan.t) : Doc.plan :=
  Doc.mk_plan None (Some (map tier_payload (Plan.tiers plan))) (Some today).

Definition save_plan (today : string) (plan : Plan.t) (path : string)
    (fs : files) : files :=
  <[path := payload today plan]> fs.

End Persist.

(** [plan_to_dict] and [dict_to_plan] of [reserve_manager_enhanced.py]. *)
Module Enhanced.

Definition account_dict (a : Account.t) : Doc.account :=
  Doc.mk_account (Some (Account.name a)) (Some (Account.balance a))
    (Some (Account.apy_pct a)) (Some (Account.notes a))
    (Some (Account.alloc_weight a)) (Some (Account.account_target a)).

Definition tier_dict (t : Tier.t) : Doc.tier :=
  Doc.mk_tier (Some (Tier.name t)) (Some (Tier.purpose t))
    (Some (Tier.target t)) (Some (Tier.priority t))
    (Some (Tier.preferred_account t))
    (Some (map account_dict (Tier.accounts t))).

Definition plan_to_dict (plan : Plan.t) : Doc.plan :=
  Doc.mk_plan (Some "2.0"%string)
    (Some (map tier_dict (Plan.tiers plan)))
    (Some (Plan.last_updated plan)).

Definition account_of_dict (a : Doc.account) : outcome Account.t :=
  and_then (item (Doc.a_name a)) (fun name =>
    Done (Account.mk name
            (get (Doc.a_balance a) 0)
            (get (Doc.a_apy_pct a) 0)
            (get (Doc.a_notes a) "")
            (get (Doc.a_alloc_weight a) 1)
            (get (Doc.a_account_target a) None))).

Definition tier_of_dict (t : Doc.tier) : outcome Tier.t :=
  and_then (for_each account_of_dict (get (Doc.t_accounts t) [])) (fun accounts =>
    and_then (item (Doc.t_name t)) (fun name =>
      Done (Tier.mk name
              (get (Doc.t_purpose t) "")
              (get (Doc.t_target t) 0)
              (get (Doc.t_priority t) 1%Z)
              accounts
              (get (Doc.t_preferred_account t) None)))).

Definition dict_to_plan (today : string) (data : Doc.plan) : outcome Plan.t :=
  and_then (for_each tier_of_dict (get (Doc.tiers data) [])) (fun tiers =>
    Done (Plan.mk tiers (get (Doc.last_updated data) today))).

End Enhanced.

(** [default_plan()] *)
Definition default_plan (today : string) : Plan.t :=
  Plan.mk
    [Tier.mk "Tier 1" "Buffer & short‑term emergencies" 30000 1
       [Account.mk "Checking" 0 (2 # 100) "Monthly expenses" 1 None;
        Account.mk "Savings (Discover)" 0 (411 # 100) "FDIC savings" 2
          (Some 23000)]
       (Some "Savings (Discover)"%string);
     Tier.mk "Tier 2" "Emergency fund" 30000 2
       [Account.mk "Savings/MM" 0 (375 # 100) "Liquid reserve" 1 None;
        Account.mk "USDC (Coinbase)" 0 (520 # 100) "Stablecoin yield" 2
          (Some 20000)]
       (Some "USDC (Coinbase)"%string);
     Tier.mk "Tier 3" "Large capital expenditures" 40000 3
       [Account.mk "Short‑Term Bonds (Schwab)" 0 (425 # 100) "Ladder/ETF" 2
          (Some 30000);
        Account.mk "USDC (Coinbase)" 0 (450 # 100) "" 1 (Some 10000)]
       (Some "Short‑Term Bonds (Schwab)"%string);
     Tier.mk "Tier 4" "Long‑term debt reduction & income generation" 100000 4
       [Account.mk "Bonds" 0 (425 # 100) "Income/low risk" 2 None;
        Account.mk "Dividend Stocks" 0 (310 # 100) "After‑tax income proxy" 1
          None;
        Account.mk "REITs" 0 (450 # 100) "Higher yield" 1 None;
        Account.mk "Crypto" 0 40 "High risk / high potential" 1 None]
       (Some "Bonds"%string);
     Tier.mk "Tier 5" "Capital gains tax holding (1‑yr horizon)" 25000 5
       [Account.mk "Short‑Term Bonds (Schwab)" 0 (425 # 100)
          "Hold until taxes due" 1 None]
       (Some "Short‑Term Bonds (Schwab)"%string);
     Tier.mk "Tier 6" "Temporary holding (unallocated cash)" 0 6
       [Account.mk "Savings" 0 (375 # 100) "Parking until allocated" 1 None]
       (Some "Savings"%string)]
    today.

Module Cli.

(** [tier = plan.by_name(name)] and a change of [tier] in place: the first
    tier of that name in [plan.tiers] is the one that changes. *)
Fixpoint replace_first (name : string) (t' : Tier.t) (ts : list Tier.t)
  : list Tier.t :=
  match ts with
  | [] => []
  | t :: rest =>
      if String.eqb (Tier.name t) name then t' :: rest
      else t :: replace_first name t' rest
  end.

Definition with_tier (plan : Plan.t) (name : string)
    (change : Tier.t -> outcome Tier.t) : outcome Plan.t :=
  and_then (lift (Plan.by_name plan name)) (fun tier =>
    and_then (change tier) (fun tier' =>
      Done (Plan.mk (replace_first name tier' (Plan.tiers plan))
              (Plan.last_updated plan)))).

Definition exists_file (path : string) (fs : files) : bool :=
  match fs !! path with
  | Some _ => true
  | None => false
  end.

Definition cmd_init (today : string) (force : bool) (fs : files)
  : outcome files :=
  if exists_file CONFIG_FILE fs && negb force then Failed SystemExit
  else Done (Persist.save_plan today (default_plan today) CONFIG_FILE fs).

Definition cmd_set_balance (today tier account : string) (balance : Q)
    (apy : option Q) (notes : string) (fs : files) : outcome files :=
  and_then (Persist.load_plan today CONFIG_FILE fs) (fun plan =>
    and_then (with_tier plan tier (fun t =>
            Done (Tier.add_or_update_account t account balance apy
                    (if truthy_str notes then notes else "") None None)))
      (fun plan' =>
         Done (Persist.save_plan today plan' CONFIG_FILE fs))).

Definition cmd_set_target (today tier : string) (target : Q) (fs : files)
  : outcome files :=
  and_then (Persist.load_plan today CONFIG_FILE fs) (fun plan =>
    and_then (with_tier plan tier (fun t =>
            Done (Tier.mk (Tier.name t) (Tier.purpose t) target
                    (Tier.priority t) (Tier.accounts t)
                    (Tier.preferred_account t))))
      (fun plan' =>
         Done (Persist.save_plan today plan' CONFIG_FILE fs))).

Definition cmd_set_preferred (today tier : string) (account : option string)
    (fs : files) : outcome files :=
  and_then (Persist.load_plan today CONFIG_FILE fs) (fun plan =>
    and_then (with_tier plan tier (fun t =>
            lift (Tier.set_preferred t
                    (if truthy_opt_str account then account else None))))
      (fun plan' =>
         Done (Persist.save_plan today plan' CONFIG_FILE fs))).

(** The loops of [cmd_set_weight] and [cmd_set_account_target] over
    [tier.accounts]: the first account of that name is changed; [None]
    when there is none ([found] stays [False]). *)
Fixpoint change_first (name : string) (change : Account.t -> Account.t)
    (accs : list Account.t) : option (list Account.t) :=
  match accs with
  | [] => None
  | a :: rest =>
      if String.eqb (Account.name a) name then Some (change a :: rest)
      else
        match change_first name change rest with
        | Some rest' => Some (a :: rest')
        | None => None
        end
  end.

Definition cmd_set_weight (today tier account : string) (weight : Q)
    (fs : files) : outcome files :=
  and_then (Persist.load_plan today CONFIG_FILE fs) (fun plan =>
    and_then (with_tier plan tier (fun t =>
            match change_first account
                    (fun a => Account.mk (Account.name a) (Account.balance a)
                                (Account.apy_pct a) (Account.notes a) weight
                                (Account.account_target a))
                    (Tier.accounts t) with
            | Some accs => Done (Tier.set_accounts t accs)
            | None =>
                Done (Tier.add_or_update_account t account 0 None ""
                        (Some weight) None)
            end))
      (fun plan' =>
         Done (Persist.save_plan today plan' CONFIG_FILE fs))).

Definition cmd_set_account_target (today tier account : string) (target : Q)
    (fs : files) : outcome files :=
  and_then (Persist.load_plan today CONFIG_FILE fs) (fun plan =>
    and_then (with_tier plan tier (fun t =>
            match change_first account
                    (fun a => Account.mk (Account.name a) (Account.balance a)
                                (Account.apy_pct a) (Account.notes a)
                                (Account.alloc_weight a) (Some target))
                    (Tier.accounts t) with
            | Some accs => Done (Tier.set_accounts t accs)
            | None =>
                Done (Tier.add_or_update_account t account 0 None ""
                        None (Some target))
            end))
      (fun plan' =>
         Done (Persist.save_plan today plan' CONFIG_FILE fs))).

Definition cmd_add_tier (today name purpose : string) (target : Q)
    (priority : Z) (fs : files) : outcome files :=
  and_then (Persist.load_plan today CONFIG_FILE fs) (fun plan =>
    if existsb (fun t => String.eqb (Tier.name t) name) (Plan.tiers plan)
    then Failed SystemExit
    else
      Done (Persist.save_plan today
              (Plan.mk (Plan.tiers plan
                          ++ [Tier.mk name purpose target priority [] None])
                 (Plan.last_updated plan))
              CONFIG_FILE fs)).

Definition cmd_remove_tier (today name : string) (fs : files)
  : outcome files :=
  and_then (Persist.load_plan today CONFIG_FILE fs) (fun plan =>
    Done (Persist.save_plan today
            (Plan.mk (List.filter
                        (fun t => negb (String.eqb (Tier.name t) name))
                        (Plan.tiers plan))
               (Plan.last_updated plan))
            CONFIG_FILE fs)).

End Cli.

(** The commands that write the file, with their arguments, and the
    dispatch of [main] on them. *)
Inductive command :=
| Init (force : bool)
| SetBalance (tier account : string) (balance : Q) (apy : option Q)
    (notes : string)
| SetTarget (tier : string) (target : Q)
| SetPreferredAccount (tier : string) (account : option string)
| SetAccountWeight (tier account : string) (weight : Q)
| SetAccountTarget (tier account : string) (target : Q)
| AddTier (name purpose : string) (target : Q) (priority : Z)
| RemoveTier (name : string).

Definition run (today : string) (c : command) (fs : files) : outcome files :=
  match c with
  | Init force => Cli.cmd_init today force fs
  | SetBalance tier account balance apy notes =>
      Cli.cmd_set_balance today tier account balance apy notes fs
  | SetTarget tier target => Cli.cmd_set_target today tier target fs
  | SetPreferredAccount tier account =>
      Cli.cmd_set_preferred today tier account fs
  | SetAccountWeight tier account weight =>
      Cli.cmd_set_weight today tier account weight fs
  | SetAccountTarget tier account target =>
      Cli.cmd_set_account_target today tier account target fs
  | AddTier name purpose target priority =>
      Cli.cmd_add_tier today name purpose target priority fs
  | RemoveTier name => Cli.cmd_remove_tier today name fs
  end.

(** A plan the engine can work on: every preferred account is unset or
    names an account of its tier, and no two tiers have the same name. *)
Definition usable (p : Plan.t) : Prop :=
  Forall (fun t => preferred_ok t = true) (Plan.tiers p) /\ distinct_names p.

(** The configuration file is absent or holds a usable plan. *)
Definition sound_store (fs : files) : Prop :=
  match fs !! CONFIG_FILE with
  | None => True
  | Some data =>
      forall today, exists p, Persist.parse_plan today data = Done p /\ usable p
  end.

(** The tier a command is addressed to ([args.tier]). *)
Definition target_tier (c : command) : option string :=
  match c with
  | SetBalance tier _ _ _ _ => Some tier
  | SetTarget tier _ => Some tier
  | SetPreferredAccount tier _ => Some tier
  | SetAccountWeight tier _ _ => Some tier
  | SetAccountTarget tier _ _ => Some tier
  | Init _ | AddTier _ _ _ _ | RemoveTier _ => None
  end.

(** The change a command makes to a tier keeps the tier's name, purpose and
    priority, and keeps the accounts' names in place (new ones come last). *)
Definition keeps_identity (t t' : Tier.t) : Prop :=
  Tier.name t' = Tier.name t /\
  Tier.purpose t' = Tier.purpose t /\
  Tier.priority t' = Tier.priority t /\
  exists extra,
    map Account.name (Tier.accounts t')
    = map Account.name (Tier.accounts t) ++ extra.

(* ================================================================== *)
(** * The engine in binary64

    Where a claim depends on how floats round (which cent a share lands
    on, whether a loop ends, whether a power overflows), the exact model
    above says nothing about the program.  This module embeds the same
    functions over IEEE 754 binary64, the floats of the kernel:
    [+], [-], [*], [/] and the comparisons are the machine operations (a
    comparison with NaN is false), [float("inf")] is [infinity].

    [round(x, 2)] is CPython's: the exact value of [x] is rounded to the
    nearest hundredth, ties to the even one, and the float nearest to that
    decimal is returned.  [x ** n] is taken as the correctly rounded power;
    it raises [OverflowError] when the result leaves the range.  [sum]
    adds from the left (CPython 3.12 adds a compensation term, which can
    change the last bits of a sum only). *)

Module F64.

Import PrimFloat SpecFloat FloatOps.

#[local] Set Warnings "-inexact-float".

Inductive exn := StopIteration | OverflowError.

(** A call returns, raises, or (in this model of the [while] loop) uses up
    the turns it was given. *)
Inductive result (A : Type) :=
| Ok (a : A)
| Raise (e : exn)
| OutOfFuel.
Arguments Ok {A} a.
Arguments Raise {A} e.
Arguments OutOfFuel {A}.

Definition bind {A B} (r : result A) (k : A -> result B) : result B :=
  match r with
  | Ok a => k a
  | Raise e => Raise e
  | OutOfFuel => OutOfFuel
  end.

(** [x < y], [x <= y]; [max(a, b)] keeps [a] unless [b] is strictly larger,
    [min(a, b)] keeps [a] unless [b] is strictly smaller. *)
Definition lt (x y : float) : bool := PrimFloat.ltb x y.
Definition le (x y : float) : bool := PrimFloat.leb x y.
Definition max (a b : float) : float := if lt a b then b else a.
Definition min (a b : float) : float := if lt b a then b else a.

Definition sum (xs : list float) : float := fold_left PrimFloat.add xs 0%float.

(** The number a finite float stands for, without its sign. *)
Definition magnitude (m : positive) (e : Z) : Q :=
  match e with
  | Z0 => Zpos m # 1
  | Zpos k => Zpos (m * 2 ^ k) # 1
  | Zneg k => Zpos m # 2 ^ k
  end.

(** The float of an integer below [2^53] with the given sign; it is exact. *)
Definition of_int (negative : bool) (n : Z) : float :=
  SF2Prim match n with
          | Zpos p => S754_finite negative p 0
          | _ => S754_zero negative
          end.

(** [round(x, 2)].  From [2^53] hundredths on, a float is further from its
    neighbours than a hundredth and is returned as it is, like zeros,
    infinities and NaN. *)
Definition round2 (x : float) : float :=
  match Prim2SF x with
  | S754_finite s m e =>
      let n := Py.round_half_even (magnitude m e * 100) in
      if (n <? 2 ^ 53)%Z then (of_int s n / 100)%float else x
  | _ => x
  end.





(* ------------------------------------------------------------------ *)
Module Account.

Record t := mk {
  name : string;
  balance : float;
  apy_pct : float;
  notes : string;
  alloc_weight : float;
  account_target : option float
}.


Definition remaining_room (self : t) : float :=
  match account_target self with
  | None => infinity
  | Some tgt => max 0 (tgt - balance self)%float
  end.

End Account.

(** An account-level move [(account_name, amount)]. *)
Definition move : Type := string * float.

(* ------------------------------------------------------------------ *)
Module Tier.

Record t := mk {
  name : string;
  purpose : string;
  target : float;
  priority : Z;
  accounts : list Account.t;
  preferred_account : option string
}.

Definition total (self : t) : float :=
  sum (map Account.balance (accounts self)).

Definition gap (self : t) : float := max 0 (target self - total self)%float.

(** [set_preferred]: the new state, or [None] for [KeyError]. *)
Definition set_preferred (self : t) (account_name : option string)
  : option t :=
  match account_name with
  | None =>
      Some (mk (name self) (purpose self) (target self) (priority self)
              (accounts self) None)
  | Some n =>
      if existsb (fun a => String.eqb (Account.name a) n) (accounts self)
      then Some (mk (name self) (purpose self) (target self) (priority self)
                   (accounts self) (Some n))
      else None
  end.

(** [a.remaining_room > 0] and [max(0.0, a.alloc_weight)]. *)
Definition has_room (a : Account.t) : bool := lt 0 (Account.remaining_room a).

Definition weight (a : Account.t) : float := max 0 (Account.alloc_weight a).

(** [candidates] and [total_w] of a turn of the loop. *)
Definition candidates (self : t) : list Account.t :=
  List.filter has_room (accounts self).

Definition total_weight (cands : list Account.t) : float :=
  sum (map weight cands).

(** The preferred-account block: the moves and the pool after it.  [next]
    over a generator with no match raises [StopIteration]. *)
Definition preferred_step (self : t) (remaining : float)
  : result (list move * float) :=
  if truthy_opt_str (preferred_account self) then
    match List.find
            (fun a => match preferred_account self with
                      | Some p => String.eqb (Account.name a) p
                      | None => false
                      end) (accounts self) with
    | None => Raise StopIteration
    | Some pa =>
        let room := Account.remaining_room pa in
        if lt 0 room then
          let add := min remaining room in
          if lt 0 add
          then Ok ([(Account.name pa, round2 add)], (remaining - add)%float)
          else Ok ([], remaining)
        else Ok ([], remaining)
    end
  else Ok ([], remaining).

(** What [for a in candidates] computes for one account. *)
Definition rounded_share (a : Account.t) (total_w remaining : float) : float :=
  let share := (remaining * (weight a / total_w))%float in
  round2 (min share (Account.remaining_room a)).

(** One run of [for a in candidates] inside the [while] loop. *)
Fixpoint weighted_pass (cands : list Account.t) (total_w remaining : float)
    (moves : list move) (progressed : bool) : list move * float * bool :=
  match cands with
  | [] => (moves, remaining, progressed)
  | a :: rest =>
      let add := rounded_share a total_w remaining in
      if lt 0 add
      then weighted_pass rest total_w (remaining - add)%float
             (moves ++ [(Account.name a, add)]) true
      else weighted_pass rest total_w remaining moves progressed
  end.

(** The [while remaining > 0] loop: the moves and the pool when it ends.
    Each turn of the loop uses one unit of [fuel]. *)
Fixpoint distribute (fuel : nat) (self : t) (remaining : float)
    (moves : list move) : result (list move * float) :=
  match fuel with
  | O => OutOfFuel
  | S fuel' =>
      if lt 0 remaining then
        match candidates self with
        | [] => Ok (moves, remaining)
        | a :: _ =>
            let total_w := total_weight (candidates self) in
            if le total_w 0 then
              let add := min remaining (Account.remaining_room a) in
              Ok (moves ++ [(Account.name a, round2 add)],
                  (remaining - add)%float)
            else
              let '(moves', remaining', progressed) :=
                weighted_pass (candidates self) total_w remaining moves false in
              if progressed
              then distribute fuel' self remaining' moves'
              else Ok (moves', remaining')
        end
      else Ok (moves, remaining)
  end.

(** [allocate_into_accounts] with the pool it leaves, and as the program
    returns it. *)
Definition allocate_with_pool (fuel : nat) (self : t) (amount : float)
  : result (list move * float) :=
  let remaining := max 0 amount in
  if le remaining 0 || match accounts self with [] => true | _ => false end
  then Ok ([], remaining)
  else
    bind (preferred_step self remaining) (fun '(moves, remaining) =>
      distribute fuel self remaining moves).

Definition allocate_into_accounts (fuel : nat) (self : t) (amount : float)
  : result (list move) :=
  bind (allocate_with_pool fuel self amount) (fun '(moves, _) => Ok moves).

End Tier.

(* ------------------------------------------------------------------ *)
Module Plan.

Record t := mk {
  tiers : list Tier.t;
  last_updated : string
}.

(** [sorted(self.tiers, key=lambda t: t.priority)], a stable sort. *)
Fixpoint insert_by_priority (x : Tier.t) (l : list Tier.t) : list Tier.t :=
  match l with
  | [] => [x]
  | y :: l' =>
      if (Tier.priority x <=? Tier.priority y)%Z
      then x :: y :: l'
      else y :: insert_by_priority x l'
  end.

Definition sorted_by_priority (self : t) : list Tier.t :=
  fold_right insert_by_priority [] (tiers self).

(** The [for tier in self.sorted_by_priority()] loop of [allocation_plan]:
    the moves and what remains of the cash. *)
Fixpoint fill (ts : list Tier.t) (remaining : float) (moves : list move)
  : list move * float :=
  match ts with
  | [] => (moves, remaining)
  | tier :: rest =>
      if le remaining 0 then (moves, remaining)
      else
        let need := Tier.gap tier in
        if le need 0 then fill rest remaining moves
        else
          let amt := min remaining need in
          if lt 0 amt
          then fill rest (remaining - amt)%float
                 (moves ++ [(Tier.name tier, round2 amt)])
          else fill rest remaining moves
  end.

Definition is_growth (t : Tier.t) : bool :=
  contains "Tier 4" (Tier.name t) || contains "Growth" (Tier.purpose t).

Definition growth_tier (self : t) : option Tier.t :=
  List.find is_growth (sorted_by_priority self).

Definition allocation_plan (self : t) (new_cash : float) : list move :=
  let '(moves, remaining) :=
    fill (sorted_by_priority self) (max 0 new_cash) [] in
  if lt 0 remaining then
    match growth_tier self with
    | Some growth => moves ++ [(Tier.name growth, round2 remaining)]
    | None => moves
    end
  else moves.





End Plan.

(** The preferred account is unset, or names an account of the tier. *)
Definition preferred_ok (t : Tier.t) : bool :=
  match Tier.preferred_account t with
  | None => true
  | Some p =>
      negb (truthy_str p)
      || existsb (fun a => String.eqb (Account.name a) p) (Tier.accounts t)
  end.

(** Two tiers for the degenerate states: a preferred account that does not
    exist, and a single account capped one unit above its balance. *)
Definition dangling_tier : Tier.t :=
  Tier.mk "Tier 1" "Buffer" 100 1
    [Account.mk "Checking" 10 0 "" 1 None] (Some "Savings"%string).


(** The amounts of a list of moves. *)
Definition amounts (moves : list move) : list float := map snd moves.

(** A preferred account with room for 17/128, and three equal accounts
    without caps. *)
Definition capped_preferred_tier : Tier.t :=
  Tier.mk "Tier 2" "Emergency" 1000 2
    [Account.mk "Savings" 0 0 "" 1 (Some 0.1328125%float);
     Account.mk "Checking" 0 0 "" 1 None]
    (Some "Savings"%string).

Definition three_way_tier : Tier.t :=
  Tier.mk "Tier 4" "Growth" 1000 4
    [Account.mk "A" 0 0 "" 1 None; Account.mk "B" 0 0 "" 1 None;
     Account.mk "C" 0 0 "" 1 None]
    None.


(** Plans for the tier-level examples: one tier 90 short of its target, a
    growth tier 1000 short, and two tiers with gaps of 0.10 and 1.00. *)
Definition buffer_plan : Plan.t :=
  Plan.mk [Tier.mk "Tier 1" "Buffer" 100 1
             [Account.mk "Checking" 10 0 "" 1 None] None]
    "2024-01-01".

Definition growth_plan : Plan.t := Plan.mk [three_way_tier] "2024-01-01".



(** The tier a name stands for in a plan: the last one of that name. *)
Fixpoint last_named (n : string) (ts : list Tier.t) : option Tier.t :=
  match ts with
  | [] => None
  | t :: rest =>
      match last_named n rest with
      | Some u => Some u
      | None => if String.eqb (Tier.name t) n then Some t else None
      end
  end.







End F64.

(* ================================================================== *)
(** * Properties *)

(** ** Comparisons, [min] and [max] *)

Lemma ltb_lt (x y : Q) : ltb x y = true <-> x < y.
Proof. unfold ltb, Qlt. apply Z.ltb_lt. Qed.

Lemma ltb_ge (x y : Q) : ltb x y = false <-> y <= x.
Proof. unfold ltb, Qle. rewrite Z.ltb_ge. reflexivity. Qed.

Lemma leb_le (x y : Q) : leb x y = true <-> x <= y.
Proof. unfold leb, Qle. apply Z.leb_le. Qed.

Lemma leb_gt (x y : Q) : leb x y = false <-> y < x.
Proof. unfold leb, Qlt. rewrite Z.leb_gt. reflexivity. Qed.

(** Turn every comparison of the program into a fact on [Q]. *)
Ltac cmp_facts :=
  repeat match goal with
    | H : ltb _ _ = true |- _ => apply ltb_lt in H
    | H : ltb _ _ = false |- _ => apply ltb_ge in H
    | H : leb _ _ = true |- _ => apply leb_le in H
    | H : leb _ _ = false |- _ => apply leb_gt in H
    end.

Ltac case_cmp c :=
  let E := fresh "E" in destruct c eqn:E; cmp_facts.

Lemma min_spec (a b : Q) :
  (b < a /\ Py.min a b = b) \/ (a <= b /\ Py.min a b = a).
Proof. unfold Py.min. case_cmp (ltb b a); auto. Qed.

Lemma max_spec (a b : Q) :
  (a < b /\ Py.max a b = b) \/ (b <= a /\ Py.max a b = a).
Proof. unfold Py.max. case_cmp (ltb a b); auto. Qed.

Lemma min_le_l (a b : Q) : Py.min a b <= a.
Proof. destruct (min_spec a b) as [[? ->]|[? ->]]; lra. Qed.

Lemma min_le_r (a b : Q) : Py.min a b <= b.
Proof. destruct (min_spec a b) as [[? ->]|[? ->]]; lra. Qed.




(** [sum] as a right fold, for inductions. *)
Lemma sum_from (xs : list Q) (a : Q) :
  fold_left Qplus xs a == a + Py.sum xs.
Proof.
  unfold Py.sum. revert a. induction xs as [|x xs IH]; intros a; simpl.
  - lra.
  - rewrite (IH (a + x)), (IH (0 + x)). lra.
Qed.

Lemma sum_nil : Py.sum [] == 0.
Proof. reflexivity. Qed.

Lemma sum_cons (x : Q) (xs : list Q) : Py.sum (x :: xs) == x + Py.sum xs.
Proof. unfold Py.sum at 1. simpl. rewrite sum_from. lra. Qed.


Lemma sum_nonneg (xs : list Q) :
  Forall (fun x => 0 <= x) xs -> 0 <= Py.sum xs.
Proof.
  induction 1 as [|x xs Hx _ IH].
  - rewrite sum_nil. lra.
  - rewrite sum_cons. lra.
Qed.

(** ** Rounding *)

Lemma round_half_even_near (q : Q) :
  inject_Z (round_half_even q) - q <= 1 # 2 /\
  q - inject_Z (round_half_even q) <= 1 # 2.
Proof.
  unfold round_half_even.
  pose proof (Qfloor_le q) as Hlo. pose proof (Qlt_floor q) as Hhi.
  rewrite inject_Z_plus in Hhi. change (inject_Z 1) with 1 in Hhi.
  destruct (Qcompare (q - inject_Z (Qfloor q)) (1 # 2)) eqn:E.
  - rewrite <- Qeq_alt in E. destruct (Z.even (Qfloor q));
      rewrite ?inject_Z_plus; change (inject_Z 1) with 1; split; lra.
  - rewrite <- Qlt_alt in E. split; lra.
  - rewrite <- Qgt_alt in E. rewrite inject_Z_plus.
    change (inject_Z 1) with 1. split; lra.
Qed.

Lemma round_half_even_proper (q q' : Q) :
  q == q' -> round_half_even q = round_half_even q'.
Proof.
  intros H. unfold round_half_even.
  rewrite (Qfloor_comp _ _ H).
  assert (Hc : Qcompare (q - inject_Z (Qfloor q')) (1 # 2)
               = Qcompare (q' - inject_Z (Qfloor q')) (1 # 2))
    by (apply Qcompare_comp; [rewrite H|]; reflexivity).
  rewrite Hc. reflexivity.
Qed.



Lemma cents_as_mul (z : Z) : z # 100 == inject_Z z * (1 # 100).
Proof. unfold Qeq. simpl. lia. Qed.

Lemma round2_val (q : Q) :
  round2 q == inject_Z (round_half_even (q * 100)) * (1 # 100).
Proof. unfold round2. apply cents_as_mul. Qed.









(* ------------------------------------------------------------------ *)
(** ** Upsert of an account *)

Lemma update_first_found (n : string) (b : Q) (apy : option Q) (notes : string)
    (w cap : option Q) (pre post : list Account.t) (a : Account.t) :
  Forall (fun x => Account.name x <> n) pre ->
  Account.name a = n ->
  Tier.update_first n b apy notes w cap (pre ++ a :: post)
  = Some (pre ++ patched a b apy notes w cap :: post).
Proof.
  intros Hpre Ha. induction Hpre as [|x pre Hx _ IH]; simpl.
  - rewrite (proj2 (String.eqb_eq _ _) Ha). unfold patched.
    destruct apy, w; reflexivity.
  - rewrite (proj2 (String.eqb_neq _ _) Hx), IH. reflexivity.
Qed.

Lemma update_first_absent (n : string) (b : Q) (apy : option Q) (notes : string)
    (w cap : option Q) (accs : list Account.t) :
  Forall (fun x => Account.name x <> n) accs ->
  Tier.update_first n b apy notes w cap accs = None.
Proof.
  induction 1 as [|x l Hx _ IH]; simpl; [reflexivity|].
  rewrite (proj2 (String.eqb_neq _ _) Hx), IH. reflexivity.
Qed.

(** C10, as stated, fails: notes passed as the empty string (which is not
    [None]) leave the stored notes as they were. *)
Lemma upsert_empty_notes_kept :
  map Account.notes
    (Tier.accounts (Tier.add_or_update_account T0 "Checking" 5 None "" None None))
  = ["old"%string]
  /\ "old"%string <> ""%string.
Proof. split; [reflexivity | discriminate]. Qed.

(** C10 (amended).  [add_or_update_account] touches only the accounts of the
    tier.  When an account of the given name exists, the first such account
    gets the supplied balance; [apy_pct], [alloc_weight] and
    [account_target] are replaced exactly when the argument is not [None];
    [notes] are replaced exactly when the argument is a non-empty string.
    When no account has the name, one account is appended with the supplied
    name, balance, notes and cap, yield 0 when none is given, weight 1 when
    none is given and the supplied weight when it is not zero. *)
Theorem upsert_semantics (t : Tier.t) (n : string) (b : Q) (apy : option Q)
    (notes : string) (w cap : option Q) :
  let t' := Tier.add_or_update_account t n b apy notes w cap in
  (Tier.name t' = Tier.name t /\ Tier.purpose t' = Tier.purpose t /\
   Tier.target t' = Tier.target t /\ Tier.priority t' = Tier.priority t /\
   Tier.preferred_account t' = Tier.preferred_account t) /\
  (forall pre a post,
      Tier.accounts t = pre ++ a :: post ->
      Forall (fun x => Account.name x <> n) pre ->
      Account.name a = n ->
      Tier.accounts t' = pre ++ patched a b apy notes w cap :: post) /\
  (Forall (fun x => Account.name x <> n) (Tier.accounts t) ->
   exists a',
     Tier.accounts t' = Tier.accounts t ++ [a'] /\
     Account.name a' = n /\ Account.balance a' = b /\
     Account.apy_pct a' == default 0 apy /\
     Account.notes a' = notes /\
     Account.account_target a' = cap /\
     (w = None -> Account.alloc_weight a' = 1) /\
     (forall x, w = Some x -> ~ x == 0 -> Account.alloc_weight a' = x)).
Proof.
  intros t'. subst t'. unfold Tier.add_or_update_account. split; [|split].
  - destruct (Tier.update_first _ _ _ _ _ _ _); simpl; repeat split; reflexivity.
  - intros pre a post Hacc Hpre Ha.
    rewrite Hacc, (update_first_found n b apy notes w cap pre post a Hpre Ha).
    reflexivity.
  - intros Habs. rewrite (update_first_absent n b apy notes w cap _ Habs).
    eexists. split; [reflexivity|]. simpl. repeat split.
    + destruct apy as [x|]; simpl; [|reflexivity].
      destruct (Qeq_bool x 0) eqn:E; [|reflexivity].
      apply Qeq_bool_eq in E. symmetry. exact E.
    + intros ->. reflexivity.
    + intros x -> Hx. simpl. destruct (Qeq_bool x 0) eqn:E; [|reflexivity].
      apply Qeq_bool_eq in E. contradiction.
Qed.

Lemma upsert_semantics_witness :
  Tier.accounts (Tier.add_or_update_account T0 "Checking" 5 None "" (Some 2) None)
  = [Account.mk "Checking" 5 (1 # 2) "old" 2 None].
Proof.
  apply (proj1 (proj2 (upsert_semantics T0 "Checking" 5 None "" (Some 2) None))
           [] (Account.mk "Checking" 10 (1 # 2) "old" 1 None) []).
  - reflexivity.
  - constructor.
  - reflexivity.
Defined.

(* ------------------------------------------------------------------ *)
(** ** Distribution inside a tier *)



(** ** The sum of what a tier hands out *)





(* ------------------------------------------------------------------ *)
(** ** The waterfall over the tiers *)

Lemma fill_is_waterfall (ts : list Tier.t) :
  forall (r : Q) (moves : list move),
    Plan.fill ts r moves
    = (moves ++ map tier_move (fst (waterfall ts r)), snd (waterfall ts r)).
Proof.
  induction ts as [|t ts IH]; intros r moves; simpl.
  - rewrite app_nil_r. reflexivity.
  - destruct (leb r 0); [simpl; rewrite app_nil_r; reflexivity|].
    destruct (leb (Tier.gap t) 0); [apply IH|].
    destruct (ltb 0 (Py.min r (Tier.gap t))); [|apply IH].
    rewrite IH. destruct (waterfall ts _) as [l r']. simpl.
    rewrite <- app_assoc. reflexivity.
Qed.

Lemma fill_detailed_is_waterfall (ts : list Tier.t) :
  forall (r : Q) (moves : list Plan.dmove),
    Plan.fill_detailed ts r moves
    = bind (detail (fst (waterfall ts r)) moves)
        (fun m => Ok (m, snd (waterfall ts r))).
Proof.
  induction ts as [|t ts IH]; intros r moves; simpl.
  - reflexivity.
  - destruct (leb r 0); [reflexivity|].
    destruct (leb (Tier.gap t) 0); [apply IH|].
    destruct (ltb 0 (Py.min r (Tier.gap t))); [|apply IH].
    destruct (waterfall ts _) as [l r'] eqn:Ew. simpl.
    destruct (Plan.splits_or_first t _) as [s| |]; simpl; [|reflexivity..].
    rewrite IH, Ew. reflexivity.
Qed.

(** What the waterfall assigns: each assignment goes to a tier of the list,
    is positive and at most the gap of the tier; together with what is left
    they make up the cash. *)
Lemma waterfall_spec (ts : list Tier.t) :
  forall (r : Q) l r',
    waterfall ts r = (l, r') -> 0 <= r ->
    Forall (fun e => In (fst e) ts /\ 0 < snd e /\ snd e <= Tier.gap (fst e)) l
    /\ 0 <= r' /\ Py.sum (map snd l) + r' == r.
Proof.
  induction ts as [|t ts IH]; intros r l r' H Hr; simpl in H.
  - inversion H; subst. simpl. rewrite sum_nil. repeat split; [constructor|lra|lra].
  - destruct (leb r 0) eqn:E0.
    { inversion H; subst. simpl. rewrite sum_nil.
      repeat split; [constructor|lra|lra]. }
    assert (Hweak : forall l0 : list (Tier.t * Q),
               Forall (fun e => In (fst e) ts /\ 0 < snd e /\
                                snd e <= Tier.gap (fst e)) l0 ->
               Forall (fun e => In (fst e) (t :: ts) /\ 0 < snd e /\
                                snd e <= Tier.gap (fst e)) l0).
    { intros l0 H0. eapply Forall_impl; [exact H0|].
      intros e (? & ? & ?). repeat split; [right|..]; assumption. }
    destruct (leb (Tier.gap t) 0) eqn:Eg.
    { apply IH in H as (Hf & ? & ?); [|exact Hr]. auto. }
    destruct (ltb 0 (Py.min r (Tier.gap t))) eqn:Ea.
    + destruct (waterfall ts _) as [l1 r1] eqn:Ew. inversion H; subst.
      cmp_facts. pose proof (min_le_l r (Tier.gap t)).
      pose proof (min_le_r r (Tier.gap t)).
      apply IH in Ew as (Hf & ? & Hs); [|lra].
      repeat split.
      * constructor; [|apply Hweak; exact Hf].
        simpl. repeat split; [left; reflexivity|lra|lra].
      * assumption.
      * simpl. rewrite sum_cons. simpl. lra.
    + apply IH in H as (Hf & ? & ?); [|exact Hr]. auto.
Qed.

(** Cash is left only when every gap has been filled. *)
Lemma waterfall_leftover (ts : list Tier.t) :
  forall (r : Q) l r',
    waterfall ts r = (l, r') -> 0 < r' ->
    Forall (fun t => Tier.gap t <= 0 \/
                     exists a, In (t, a) l /\ a == Tier.gap t) ts.
Proof.
  induction ts as [|t ts IH]; intros r l r' H Hr'; simpl in H; [constructor|].
  destruct (leb r 0) eqn:E0.
  { inversion H; subst. cmp_facts. lra. }
  assert (Hweak : forall (l0 : list (Tier.t * Q)) e,
             Forall (fun t => Tier.gap t <= 0 \/
                              exists a, In (t, a) l0 /\ a == Tier.gap t) ts ->
             Forall (fun t => Tier.gap t <= 0 \/
                              exists a, In (t, a) (e :: l0) /\
                                        a == Tier.gap t) ts).
  { intros l0 e H0. eapply Forall_impl; [exact H0|].
    intros u [?|(a & ? & ?)]; [left; assumption|].
    right. exists a. split; [right|]; assumption. }
  destruct (leb (Tier.gap t) 0) eqn:Eg.
  { cmp_facts. constructor; [left; exact Eg | eapply IH; eassumption]. }
  destruct (ltb 0 (Py.min r (Tier.gap t))) eqn:Ea.
  - destruct (waterfall ts _) as [l1 r1] eqn:Ew. inversion H; subst.
    cmp_facts.
    pose proof (waterfall_spec ts _ _ _ Ew) as Hsp.
    destruct (min_spec r (Tier.gap t)) as [[Hlt Hm]|[Hle Hm]].
    + constructor.
      * right. exists (Py.min r (Tier.gap t)). split; [left; reflexivity|].
        rewrite Hm. reflexivity.
      * apply Hweak. eapply IH; eassumption.
    + (* the tier took all the cash: nothing can be left *)
      exfalso. rewrite Hm in Ew.
      assert (Hz : leb (r - r) 0 = true) by (apply leb_le; lra).
      destruct ts as [|u ts]; simpl in Ew.
      * inversion Ew; subst. lra.
      * rewrite Hz in Ew. inversion Ew; subst. lra.
  - cmp_facts. destruct (min_spec r (Tier.gap t)) as [[? Hm]|[? Hm]];
      rewrite Hm in Ea; lra.
Qed.

(* ------------------------------------------------------------------ *)
(** ** Priority order *)

Lemma insert_by_priority_In (x y : Tier.t) (l : list Tier.t) :
  In x (Plan.insert_by_priority y l) <-> x = y \/ In x l.
Proof.
  induction l as [|z l IH]; simpl.
  - intuition.
  - destruct (Tier.priority y <=? Tier.priority z)%Z; simpl.
    + intuition.
    + rewrite IH. intuition.
Qed.

(** ** The tier-level plan *)

(* ------------------------------------------------------------------ *)
(** ** Routing of the leftover *)

Lemma prefix_spec (a s : string) :
  String.prefix a s = true <-> exists post : string, s = (a ++ post)%string.
Proof.
  revert s. induction a as [|c a IH]; intros s; simpl.
  - split; [intros _; exists s; reflexivity|intros _; destruct s; reflexivity].
  - destruct s as [|d s]; simpl.
    + split; [discriminate|intros [post H]; discriminate H].
    + destruct (Ascii.ascii_dec c d) as [->|Hne].
      * rewrite IH. split; intros [post H]; exists post.
        -- rewrite H. reflexivity.
        -- inversion H. reflexivity.
      * split; [discriminate|].
        intros [post H]. inversion H. congruence.
Qed.

Lemma contains_unfold (sub s : string) :
  contains sub s
  = String.prefix sub s
    || match s with
       | EmptyString => false
       | String _ s' => contains sub s'
       end.
Proof. destruct s; reflexivity. Qed.

Lemma contains_spec (sub s : string) :
  contains sub s = true <-> has_substring sub s.
Proof.
  unfold has_substring. split.
  - induction s as [|c s IH]; rewrite contains_unfold, orb_true_iff.
    + intros [H|H]; [|discriminate].
      apply prefix_spec in H as [post ->]. exists ""%string, post. reflexivity.
    + intros [H|H].
      * apply prefix_spec in H as [post ->]. exists ""%string, post. reflexivity.
      * destruct (IH H) as (pre & post & ->).
        exists (String c pre), post. reflexivity.
  - intros (pre & post & ->). induction pre as [|c pre IH].
    + rewrite contains_unfold.
      assert (H : String.prefix sub ("" ++ sub ++ post) = true)
        by (apply prefix_spec; exists post; reflexivity).
      rewrite H. reflexivity.
    + change (String c pre ++ sub ++ post)%string
        with (String c (pre ++ sub ++ post)%string).
      rewrite contains_unfold. cbv beta iota. rewrite IH. apply orb_true_r.
Qed.

Lemma is_growth_spec (t : Tier.t) :
  Plan.is_growth t = true <-> growth_match t.
Proof.
  unfold Plan.is_growth, growth_match.
  rewrite orb_true_iff, !contains_spec. reflexivity.
Qed.

Lemma is_growth_false (t : Tier.t) :
  Plan.is_growth t = false -> ~ growth_match t.
Proof. intros H Hm. apply is_growth_spec in Hm. congruence. Qed.

Lemma find_first {A} (f : A -> bool) (l : list A) (x : A) :
  List.find f l = Some x ->
  exists pre post, l = pre ++ x :: post /\
    Forall (fun y => f y = false) pre /\ f x = true.
Proof.
  induction l as [|y l IH]; simpl; [discriminate|].
  destruct (f y) eqn:E.
  - intros H. inversion H; subst. exists [], l. repeat split; [constructor|exact E].
  - intros H. destruct (IH H) as (pre & post & -> & Hpre & Hx).
    exists (y :: pre), post. repeat split; [constructor; assumption|exact Hx].
Qed.

Lemma find_nowhere {A} (f : A -> bool) (l : list A) :
  List.find f l = None -> Forall (fun y => f y = false) l.
Proof.
  intros H. apply List.Forall_forall. intros y Hy.
  exact (List.find_none f l H y Hy).
Qed.

(** C4, as stated, fails for the detailed plan: with a growth tier that has
    no accounts the leftover (here all of the 100) appears in no move. *)
Lemma leftover_dropped_without_accounts :
  Plan.growth_tier empty_growth_plan = Some empty_growth_tier /\
  snd (waterfall (Plan.sorted_by_priority empty_growth_plan) (Py.max 0 100))
  == 100 /\
  Plan.allocation_plan_detailed empty_growth_plan 100 = Ok [].
Proof. repeat split. Qed.

(** C4 (amended).  When cash is left after the loop over the tiers, every
    tier with a gap has had its whole gap assigned.  The leftover then goes
    to the first tier in priority order whose name contains "Tier 4" or
    whose purpose contains "Growth": [allocation_plan] appends one move of
    the leftover rounded to two decimals; [allocation_plan_detailed] appends
    the account moves of that tier's [allocate_into_accounts] on the
    leftover, or the rounded leftover on the tier's first account when there
    are none, and nothing when the tier has no accounts.  When no tier
    matches, both return the gap-filling moves only. *)
Theorem leftover_routing (p : Plan.t) (A : Q) :
  let ts := Plan.sorted_by_priority p in
  let filled := fst (waterfall ts (Py.max 0 A)) in
  let left := snd (waterfall ts (Py.max 0 A)) in
  0 < left ->
  Forall (fun t => Tier.gap t <= 0 \/
                   exists a, In (t, a) filled /\ a == Tier.gap t) ts /\
  match Plan.growth_tier p with
  | Some g =>
      (exists pre post, ts = pre ++ g :: post /\
         Forall (fun t => ~ growth_match t) pre /\ growth_match g) /\
      Plan.allocation_plan p A
      = map tier_move filled ++ [(Tier.name g, round2 left)] /\
      Plan.allocation_plan_detailed p A
      = bind (detail filled []) (fun moves =>
          bind (Tier.allocate_into_accounts g left) (fun splits =>
            Ok (moves ++
                map (fun s => (Tier.name g, fst s, round2 (snd s)))
                  (match splits, Tier.accounts g with
                   | [], a :: _ => [(Account.name a, round2 left)]
                   | _, _ => splits
                   end)))) /\
      (Tier.accounts g = [] ->
       Plan.allocation_plan_detailed p A = detail filled [])
  | None =>
      Forall (fun t => ~ growth_match t) ts /\
      Plan.allocation_plan p A = map tier_move filled /\
      Plan.allocation_plan_detailed p A = detail filled []
  end.
Proof.
  intros ts filled left Hleft.
  assert (Hw : waterfall ts (Py.max 0 A) = (filled, left))
    by (subst filled left; destruct (waterfall _ _); reflexivity).
  split; [exact (waterfall_leftover ts _ _ _ Hw Hleft)|].
  assert (Hl : ltb 0 left = true) by (apply ltb_lt; exact Hleft).
  assert (Hplan : Plan.allocation_plan p A =
                  match Plan.growth_tier p with
                  | Some g => map tier_move filled ++ [(Tier.name g, round2 left)]
                  | None => map tier_move filled
                  end).
  { unfold Plan.allocation_plan. rewrite fill_is_waterfall. fold ts.
    rewrite Hw. cbn [fst snd app]. rewrite Hl. reflexivity. }
  assert (Hdet : Plan.allocation_plan_detailed p A =
                 bind (detail filled []) (fun moves =>
                   match Plan.growth_tier p with
                   | Some g =>
                       bind (Plan.splits_or_first g left) (fun splits =>
                         Ok (Plan.record_splits g splits moves))
                   | None => Ok moves
                   end)).
  { unfold Plan.allocation_plan_detailed. rewrite fill_detailed_is_waterfall.
    fold ts. rewrite Hw. cbn [fst snd].
    destruct (detail filled []) as [m| |]; simpl; [|reflexivity..].
    rewrite Hl. reflexivity. }
  unfold Plan.growth_tier in *. fold ts in Hplan, Hdet |- *.
  destruct (List.find Plan.is_growth ts) as [g|] eqn:Ef.
  - split; [|split; [exact Hplan|split]].
    + apply find_first in Ef as (pre & post & -> & Hpre & Hg).
      exists pre, post. repeat split.
      * eapply Forall_impl; [exact Hpre|]. intros t. apply is_growth_false.
      * apply is_growth_spec. exact Hg.
    + rewrite Hdet. destruct (detail filled []) as [m| |]; simpl; [|reflexivity..].
      unfold Plan.splits_or_first, Plan.record_splits.
      destruct (Tier.allocate_into_accounts g left) as [s| |]; simpl;
        [|reflexivity..].
      destruct s, (Tier.accounts g); reflexivity.
    + intros Hacc. rewrite Hdet.
      destruct (detail filled []) as [m| |]; simpl; [|reflexivity..].
      unfold Plan.splits_or_first, Plan.record_splits,
        Tier.allocate_into_accounts.
      rewrite Hacc, orb_true_r. simpl. rewrite app_nil_r. reflexivity.
  - split; [|split; [exact Hplan|]].
    + apply find_nowhere in Ef. eapply Forall_impl; [exact Ef|].
      intros t. apply is_growth_false.
    + rewrite Hdet. destruct (detail filled []); reflexivity.
Qed.

Lemma leftover_routing_witness :
  Plan.allocation_plan growth_plan 3000
  = map tier_move
      (fst (waterfall (Plan.sorted_by_priority growth_plan) (Py.max 0 3000)))
    ++ [(Tier.name three_way_tier,
         round2 (snd (waterfall (Plan.sorted_by_priority growth_plan)
                        (Py.max 0 3000))))].
Proof.
  assert (H : 0 < snd (waterfall (Plan.sorted_by_priority growth_plan)
                         (Py.max 0 3000))) by reflexivity.
  exact (proj1 (proj2 (proj2 (leftover_routing growth_plan 3000 H)))).
Defined.

(* ================================================================== *)
(** * Further properties of the engine *)

(** ** Rounding is monotone; equal amounts behave alike *)

Lemma round_half_even_mono (q q' : Q) :
  q <= q' -> (round_half_even q <= round_half_even q')%Z.
Proof.
  intros H.
  destruct (Z_le_gt_dec (round_half_even q) (round_half_even q')) as [Hle|Hgt];
    [exact Hle|exfalso].
  pose proof (round_half_even_near q) as [H1 _].
  pose proof (round_half_even_near q') as [_ H2].
  assert (Hz : inject_Z (round_half_even q') + 1 <= inject_Z (round_half_even q)).
  { change 1 with (inject_Z 1). rewrite <- inject_Z_plus, <- Zle_Qle. lia. }
  assert (E : q == q') by lra.
  apply round_half_even_proper in E. lia.
Qed.

Lemma round2_mono (q q' : Q) : q <= q' -> round2 q <= round2 q'.
Proof.
  intros H. rewrite (round2_val q), (round2_val q').
  assert (Hm : (round_half_even (q * 100) <= round_half_even (q' * 100))%Z)
    by (apply round_half_even_mono; lra).
  rewrite Zle_Qle in Hm. lra.
Qed.

Lemma min_mono (x x' y y' : Q) :
  x <= x' -> y <= y' -> Py.min x y <= Py.min x' y'.
Proof.
  intros Hx Hy.
  destruct (min_spec x y) as [[? ->]|[? ->]],
           (min_spec x' y') as [[? ->]|[? ->]]; lra.
Qed.

Lemma max_mono (x x' y y' : Q) :
  x <= x' -> y <= y' -> Py.max x y <= Py.max x' y'.
Proof.
  intros Hx Hy.
  destruct (max_spec x y) as [[? ->]|[? ->]],
           (max_spec x' y') as [[? ->]|[? ->]]; lra.
Qed.

Lemma sum_perm (xs ys : list Q) :
  Permutation xs ys -> Py.sum xs == Py.sum ys.
Proof.
  induction 1 as [|x xs ys _ IH|x y xs|xs ys zs _ IH1 _ IH2].
  - reflexivity.
  - rewrite !sum_cons, IH. reflexivity.
  - rewrite !sum_cons. lra.
  - rewrite IH1. exact IH2.
Qed.

(* ------------------------------------------------------------------ *)
(** ** [sorted_by_priority] is a stable sort *)

Lemma insert_by_priority_perm (x : Tier.t) (l : list Tier.t) :
  Permutation (Plan.insert_by_priority x l) (x :: l).
Proof.
  induction l as [|y l IH]; simpl; [reflexivity|].
  destruct (Tier.priority x <=? Tier.priority y)%Z; [reflexivity|].
  rewrite IH. apply perm_swap.
Qed.

Lemma insert_by_priority_sorted (x : Tier.t) (l : list Tier.t) :
  StronglySorted by_priority l ->
  StronglySorted by_priority (Plan.insert_by_priority x l).
Proof.
  induction 1 as [|y l Hs IH Hy]; simpl.
  - constructor; constructor.
  - destruct (Tier.priority x <=? Tier.priority y)%Z eqn:E.
    + apply Z.leb_le in E. constructor; [constructor; assumption|].
      constructor; [exact E|].
      eapply Forall_impl; [exact Hy|]. unfold by_priority. intros z Hz. lia.
    + apply Z.leb_gt in E. constructor; [exact IH|].
      apply List.Forall_forall. intros z Hz.
      apply insert_by_priority_In in Hz as [->|Hz].
      * unfold by_priority. lia.
      * rewrite List.Forall_forall in Hy. apply Hy. exact Hz.
Qed.

Lemma insert_by_priority_stable (k : Z) (x : Tier.t) (l : list Tier.t) :
  of_priority k (Plan.insert_by_priority x l) = of_priority k (x :: l).
Proof.
  unfold of_priority. induction l as [|y l IH]; [reflexivity|].
  cbn [Plan.insert_by_priority].
  destruct (Tier.priority x <=? Tier.priority y)%Z eqn:E; [reflexivity|].
  apply Z.leb_gt in E. cbn [List.filter] in *. rewrite IH.
  destruct (Tier.priority x =? k)%Z eqn:Ex; [|reflexivity].
  apply Z.eqb_eq in Ex.
  assert ((Tier.priority y =? k)%Z = false) as -> by (apply Z.eqb_neq; lia).
  reflexivity.
Qed.

(** [sorted_by_priority] returns the tiers of the plan, each as often as it
    occurs there, in non-decreasing priority; tiers of the same priority
    come in the order they have in the plan. *)
Theorem sorted_by_priority_stable_sort (p : Plan.t) :
  Permutation (Plan.sorted_by_priority p) (Plan.tiers p) /\
  StronglySorted by_priority (Plan.sorted_by_priority p) /\
  forall k : Z,
    of_priority k (Plan.sorted_by_priority p) = of_priority k (Plan.tiers p).
Proof.
  unfold Plan.sorted_by_priority, Plan.sort_by_priority.
  induction (Plan.tiers p) as [|t ts (IHp & IHs & IHk)]; simpl.
  - repeat split; constructor.
  - split; [|split].
    + rewrite insert_by_priority_perm. constructor. exact IHp.
    + apply insert_by_priority_sorted. exact IHs.
    + intros k. rewrite insert_by_priority_stable. unfold of_priority in *.
      cbn [List.filter]. rewrite IHk. reflexivity.
Qed.

(* ------------------------------------------------------------------ *)
(** ** The preferred account stays valid *)

Lemma existsb_none {A} (f : A -> bool) (l : list A) :
  existsb f l = false -> Forall (fun x => f x = false) l.
Proof.
  induction l as [|x l IH]; simpl; [constructor|].
  intros H. apply orb_false_iff in H as [Hx Hl].
  constructor; [exact Hx|apply IH; exact Hl].
Qed.

Lemma update_first_names (n : string) (b : Q) (apy : option Q)
    (notes : string) (w cap : option Q) (accs accs' : list Account.t) :
  Tier.update_first n b apy notes w cap accs = Some accs' ->
  map Account.name accs' = map Account.name accs.
Proof.
  revert accs'. induction accs as [|a accs IH]; intros accs' H; simpl in H;
    [discriminate|].
  destruct (String.eqb (Account.name a) n).
  - inversion H; subst. reflexivity.
  - destruct (Tier.update_first _ _ _ _ _ _ accs) as [rest|]; [|discriminate].
    inversion H; subst. simpl. rewrite (IH rest eq_refl). reflexivity.
Qed.

Lemma existsb_by_name (p : string) (l l' : list Account.t) :
  map Account.name l = map Account.name l' ->
  existsb (fun a => String.eqb (Account.name a) p) l
  = existsb (fun a => String.eqb (Account.name a) p) l'.
Proof.
  revert l'. induction l as [|a l IH]; intros [|a' l'] H; simpl in *;
    try discriminate; [reflexivity|].
  inversion H as [[Ha Hl]]. rewrite Ha, (IH l' Hl). reflexivity.
Qed.

(** [add_or_update_account] never invalidates the preferred account: it
    leaves [preferred_account] as it is, and a preferred account that was
    unset or named an account of the tier still does after the call
    (accounts are updated in place or appended, never removed or renamed). *)
Theorem upsert_keeps_preferred (t : Tier.t) (n : string) (b : Q)
    (apy : option Q) (notes : string) (w cap : option Q) :
  preferred_ok t = true ->
  let t' := Tier.add_or_update_account t n b apy notes w cap in
  Tier.preferred_account t' = Tier.preferred_account t /\
  preferred_ok t' = true.
Proof.
  intros Hp t'. subst t'.
  unfold preferred_ok, Tier.add_or_update_account in *.
  destruct (Tier.update_first _ _ _ _ _ _ _) as [accs|] eqn:E; simpl.
  - split; [reflexivity|].
    destruct (Tier.preferred_account t) as [p|]; [|reflexivity].
    rewrite (existsb_by_name p _ _ (update_first_names _ _ _ _ _ _ _ _ E)).
    exact Hp.
  - split; [reflexivity|].
    destruct (Tier.preferred_account t) as [p|]; [|reflexivity].
    rewrite existsb_app. apply orb_true_iff in Hp as [Hp|Hp].
    + rewrite Hp. reflexivity.
    + rewrite Hp. simpl. apply orb_true_r.
Qed.

Lemma upsert_keeps_preferred_witness :
  Tier.preferred_account
    (Tier.add_or_update_account capped_preferred_tier
       "Brokerage" 5 None "" None None)
  = Tier.preferred_account capped_preferred_tier /\
  preferred_ok (Tier.add_or_update_account capped_preferred_tier
                  "Brokerage" 5 None "" None None) = true.
Proof.
  apply (upsert_keeps_preferred capped_preferred_tier "Brokerage" 5
           None "" None None).
  reflexivity.
Defined.

(* ------------------------------------------------------------------ *)
(** ** The tier total after an update *)



(* ------------------------------------------------------------------ *)
(** ** Every move stays within the room of its account *)








(* ------------------------------------------------------------------ *)
(** ** More cash never takes a move away *)

Lemma waterfall_left_le (ts : list Tier.t) (r : Q) :
  0 <= r -> 0 <= snd (waterfall ts r) /\ snd (waterfall ts r) <= r.
Proof.
  intros Hr. destruct (waterfall ts r) as [l r'] eqn:Ew.
  destruct (waterfall_spec _ _ _ _ Ew Hr) as (Hl & Hr0 & Hsum).
  assert (0 <= Py.sum (map snd l)).
  { apply sum_nonneg, List.Forall_forall. intros x Hx.
    apply in_map_iff in Hx as (e & <- & He).
    rewrite List.Forall_forall in Hl. destruct (Hl e He) as (_ & ? & _). lra. }
  simpl. lra.
Qed.

Lemma waterfall_mono (ts : list Tier.t) :
  forall rA rB : Q,
    rA <= rB ->
    (forall (i : nat) t a,
        fst (waterfall ts rA) !! i = Some (t, a) ->
        exists b, fst (waterfall ts rB) !! i = Some (t, b) /\ a <= b) /\
    snd (waterfall ts rA) <= snd (waterfall ts rB) /\
    (0 < snd (waterfall ts rA) ->
     fst (waterfall ts rA) = fst (waterfall ts rB)).
Proof.
  induction ts as [|t ts IH]; intros rA rB Hle; cbn [waterfall].
  - cbn [fst snd]. repeat split; [intros i u a H; discriminate H|exact Hle].
  - destruct (leb rA 0) eqn:EA; cmp_facts.
    { cbn [fst snd]. repeat split.
      - intros i u a H. discriminate H.
      - destruct (leb rB 0) eqn:EB; cmp_facts; [exact Hle|].
        assert (HB : 0 <= rB) by lra.
        pose proof (waterfall_left_le (t :: ts) rB HB) as [H0 _].
        cbn [waterfall] in H0.
        assert (leb rB 0 = false) as Hb by (apply leb_gt; exact EB).
        rewrite Hb in H0. lra.
      - intros H. lra. }
    assert (leb rB 0 = false) as -> by (apply leb_gt; lra).
    destruct (leb (Tier.gap t) 0) eqn:Eg; cmp_facts; [apply IH; exact Hle|].
    pose proof (min_le_l rA (Tier.gap t)) as HmA.
    assert (ltb 0 (Py.min rA (Tier.gap t)) = true) as ->.
    { apply ltb_lt.
      destruct (min_spec rA (Tier.gap t)) as [[? ->]|[? ->]]; lra. }
    assert (ltb 0 (Py.min rB (Tier.gap t)) = true) as ->.
    { apply ltb_lt.
      destruct (min_spec rB (Tier.gap t)) as [[? ->]|[? ->]]; lra. }
    assert (Hrest : rA - Py.min rA (Tier.gap t) <= rB - Py.min rB (Tier.gap t)).
    { destruct (min_spec rA (Tier.gap t)) as [[? ->]|[? ->]],
               (min_spec rB (Tier.gap t)) as [[? ->]|[? ->]]; lra. }
    destruct (IH _ _ Hrest) as (IH1 & IH2 & IH3).
    assert (HrA : 0 <= rA - Py.min rA (Tier.gap t)) by lra.
    pose proof (waterfall_left_le ts _ HrA) as [_ HlA].
    destruct (waterfall ts (rA - _)) as [lA rA'].
    destruct (waterfall ts (rB - _)) as [lB rB'].
    cbn [fst snd] in *. repeat split.
    + intros [|i] u a H; cbn in H.
      * inversion H; subst. eexists. split; [reflexivity|].
        apply min_mono; lra.
      * apply IH1. exact H.
    + exact IH2.
    + intros Hpos. rewrite (IH3 Hpos). f_equal. f_equal.
      destruct (min_spec rA (Tier.gap t)) as [[HA ->]|[HA Hm]];
        [|rewrite Hm in HlA; lra].
      destruct (min_spec rB (Tier.gap t)) as [[HB ->]|[HB _]];
        [reflexivity|lra].
Qed.

Lemma allocation_plan_shape (p : Plan.t) (A : Q) :
  Plan.allocation_plan p A
  = map tier_move
      (fst (waterfall (Plan.sorted_by_priority p) (Py.max 0 A)))
    ++ overflow_move p
         (snd (waterfall (Plan.sorted_by_priority p) (Py.max 0 A))).
Proof.
  unfold Plan.allocation_plan, overflow_move. rewrite fill_is_waterfall.
  cbn [fst snd app].
  destruct (ltb 0 _); [|rewrite app_nil_r; reflexivity].
  destruct (Plan.growth_tier p); [reflexivity|rewrite app_nil_r; reflexivity].
Qed.

(** Raising the cash never removes or lowers a move of [allocation_plan]:
    the plan for the larger amount has, at every position of the plan for
    the smaller amount, a move to the same tier of at least that amount. *)
Theorem allocation_plan_monotone (p : Plan.t) (A B : Q) :
  A <= B ->
  forall (i : nat) (n : string) (x : Q),
    Plan.allocation_plan p A !! i = Some (n, x) ->
    exists y, Plan.allocation_plan p B !! i = Some (n, y) /\ x <= y.
Proof.
  intros Hle i n x. rewrite !allocation_plan_shape.
  assert (Hm : Py.max 0 A <= Py.max 0 B) by (apply max_mono; lra).
  destruct (waterfall_mono (Plan.sorted_by_priority p) _ _ Hm)
    as (H1 & H2 & H3).
  set (WA := waterfall (Plan.sorted_by_priority p) (Py.max 0 A)) in *.
  set (WB := waterfall (Plan.sorted_by_priority p) (Py.max 0 B)) in *.
  clearbody WA WB.
  intros H. apply lookup_app_Some in H as [H|[Hlen H]].
  - rewrite list_lookup_fmap in H.
    destruct (fst WA !! i) as [[t a]|] eqn:Ei; [|discriminate].
    cbn in H. inversion H; subst.
    destruct (H1 i t a Ei) as (b & Hb & Hab).
    exists (round2 b). split; [|apply round2_mono; exact Hab].
    apply lookup_app_Some. left. rewrite list_lookup_fmap, Hb. reflexivity.
  - unfold overflow_move in H.
    destruct (ltb 0 (snd WA)) eqn:EA; cmp_facts.
    2:{ apply lookup_lt_Some in H. cbn in H. destruct (Nat.nlt_0_r _ H). }
    rewrite <- (H3 EA).
    destruct (Plan.growth_tier p) as [g|] eqn:Eg.
    2:{ apply lookup_lt_Some in H. cbn in H. destruct (Nat.nlt_0_r _ H). }
    match type of H with
    | _ !! ?k = _ => destruct k as [|k'] eqn:Ek
    end.
    2:{ apply lookup_lt_Some in H. cbn in H. apply Nat.lt_1_r in H.
        discriminate H. }
    cbn in H. inversion H; subst.
    exists (round2 (snd WB)). split; [|apply round2_mono; exact H2].
    apply lookup_app_Some. right. split; [exact Hlen|].
    unfold overflow_move. rewrite Eg.
    assert (ltb 0 (snd WB) = true) as -> by (apply ltb_lt; lra).
    match goal with
    | |- _ !! ?k = _ => replace k with 0%nat by (symmetry; exact Ek)
    end.
    reflexivity.
Qed.

Lemma allocation_plan_monotone_witness :
  exists y,
    Plan.allocation_plan growth_plan 3000 !! 1%nat = Some ("Tier 4"%string, y)
    /\ 50000 # 100 <= y.
Proof.
  apply (allocation_plan_monotone growth_plan 1500 3000).
  - discriminate.
  - vm_compute. reflexivity.
Defined.

(* ------------------------------------------------------------------ *)
(** ** Looking tiers up by name *)

Lemma fold_insert_lookup (f : Tier.t -> Q) (ts : list Tier.t)
    (d : gmap string Q) (n : string) :
  fold_left (fun d t => <[Tier.name t := f t]> d) ts d !! n
  = match last_named n ts with
    | Some u => Some (f u)
    | None => d !! n
    end.
Proof.
  revert d. induction ts as [|t ts IH]; intros d; cbn [fold_left last_named];
    [reflexivity|].
  rewrite IH. destruct (last_named n ts) as [u|]; [reflexivity|].
  destruct (String.eqb (Tier.name t) n) eqn:E.
  - apply String.eqb_eq in E. subst n. apply lookup_insert_eq.
  - apply String.eqb_neq in E. apply lookup_insert_ne. exact E.
Qed.

Lemma last_named_none (n : string) (ts : list Tier.t) :
  last_named n ts = None <-> Forall (fun t => Tier.name t <> n) ts.
Proof.
  induction ts as [|t ts IH]; cbn [last_named].
  - split; [constructor|reflexivity].
  - destruct (last_named n ts) as [u|].
    + split; [discriminate|]. intros H. inversion H; subst.
      apply IH in H3. discriminate.
    + destruct (String.eqb (Tier.name t) n) eqn:E.
      * apply String.eqb_eq in E. split; [discriminate|].
        intros H. inversion H; subst. contradiction.
      * apply String.eqb_neq in E. split; [|reflexivity].
        intros _. constructor; [exact E|apply IH; reflexivity].
Qed.

Lemma last_named_distinct (t : Tier.t) (ts : list Tier.t) :
  List.NoDup (map Tier.name ts) -> In t ts -> last_named (Tier.name t) ts = Some t.
Proof.
  induction ts as [|u ts IH]; intros Hnd Hin; [destruct Hin|].
  cbn [map] in Hnd. apply List.NoDup_cons_iff in Hnd as [Hu Hnd]. cbn [last_named].
  destruct Hin as [->|Hin].
  - assert (last_named (Tier.name t) ts = None) as ->.
    { apply last_named_none, List.Forall_forall. intros x Hx E.
      apply Hu. rewrite <- E. apply in_map_iff. exists x. auto. }
    rewrite String.eqb_refl. reflexivity.
  - rewrite (IH Hnd Hin). reflexivity.
Qed.

Lemma find_distinct (t : Tier.t) (ts : list Tier.t) :
  List.NoDup (map Tier.name ts) -> In t ts ->
  List.find (fun u => String.eqb (Tier.name u) (Tier.name t)) ts = Some t.
Proof.
  induction ts as [|u ts IH]; intros Hnd Hin; [destruct Hin|].
  cbn [map] in Hnd. apply List.NoDup_cons_iff in Hnd as [Hu Hnd]. cbn [List.find].
  destruct Hin as [->|Hin]; [rewrite String.eqb_refl; reflexivity|].
  destruct (String.eqb (Tier.name u) (Tier.name t)) eqn:E; [|apply IH; assumption].
  apply String.eqb_eq in E. exfalso. apply Hu. rewrite E.
  apply in_map_iff. exists t. auto.
Qed.

Lemma fold_insert_to_map (f : Tier.t -> Q) (ts : list Tier.t)
    (acc : list (string * Q)) :
  fold_left (fun (d : gmap string Q) t => <[Tier.name t := f t]> d) ts
    (list_to_map acc)
  = list_to_map (rev (map (fun t => (Tier.name t, f t)) ts) ++ acc).
Proof.
  revert acc. induction ts as [|t ts IH]; intros acc; [reflexivity|].
  cbn [fold_left map rev]. rewrite <- app_assoc. cbn [app].
  rewrite <- IH. reflexivity.
Qed.

Lemma totals_entries (p : Plan.t) :
  distinct_names p ->
  Permutation (map_to_list (Plan.totals p))
    (map (fun t => (Tier.name t, Tier.total t)) (Plan.tiers p)).
Proof.
  intros Hnd. unfold Plan.totals.
  change (∅ : gmap string Q) with (list_to_map [] : gmap string Q).
  rewrite fold_insert_to_map, app_nil_r.
  rewrite map_to_list_to_map.
  - symmetry. apply Permutation_rev.
  - apply NoDup_ListNoDup.
    rewrite <- map_rev.
    change (List.NoDup
              (map fst (map (fun t => (Tier.name t, Tier.total t))
                          (rev (Plan.tiers p))))).
    rewrite map_map. cbn [fst].
    rewrite map_rev. apply List.NoDup_rev in Hnd. exact Hnd.
Qed.

(** In a plan whose tiers have distinct names the views by name agree: for
    every tier of the plan, [totals()] holds its total under its name and
    [by_name] returns that tier; a name is missing from [totals()] exactly
    when [by_name] raises [KeyError]; and the values of [totals()] add up to
    [total_reserves]. *)
Theorem totals_agree_with_tiers (p : Plan.t) :
  distinct_names p ->
  (forall t, In t (Plan.tiers p) ->
     Plan.totals p !! Tier.name t = Some (Tier.total t) /\
     Plan.by_name p (Tier.name t) = Ok t) /\
  (forall n, Plan.totals p !! n = None <-> Plan.by_name p n = Raise KeyError) /\
  Py.sum (map snd (map_to_list (Plan.totals p))) == Plan.total_reserves p.
Proof.
  intros Hnd. split; [|split].
  - intros t Hin. split.
    + unfold Plan.totals. rewrite fold_insert_lookup.
      rewrite (last_named_distinct t _ Hnd Hin). reflexivity.
    + unfold Plan.by_name. rewrite (find_distinct t _ Hnd Hin). reflexivity.
  - intros n. unfold Plan.totals, Plan.by_name. rewrite fold_insert_lookup.
    destruct (last_named n (Plan.tiers p)) as [u|] eqn:El.
    + split; [discriminate|].
      destruct (List.find _ _) as [v|] eqn:Ef; [discriminate|]. intros _.
      assert (Hn : last_named n (Plan.tiers p) = None).
      { apply last_named_none, List.Forall_forall. intros x Hx E.
        pose proof (List.find_none _ _ Ef x Hx) as Hne. cbn in Hne.
        rewrite E, String.eqb_refl in Hne. discriminate. }
      congruence.
    + split; [|intros _; apply lookup_empty].
      intros _. apply last_named_none in El.
      destruct (List.find _ _) as [v|] eqn:Ef; [|reflexivity].
      apply List.find_some in Ef as [Hin E]. apply String.eqb_eq in E.
      rewrite List.Forall_forall in El. exfalso. exact (El v Hin E).
  - unfold Plan.total_reserves.
    rewrite (sum_perm _ _ (Permutation_map snd (totals_entries p Hnd))).
    rewrite map_map. cbn [snd]. reflexivity.
Qed.

Lemma totals_agree_with_tiers_witness :
  Py.sum (map snd (map_to_list (Plan.totals unbalanced_plan)))
  == Plan.total_reserves unbalanced_plan.
Proof.
  apply (totals_agree_with_tiers unbalanced_plan).
  unfold distinct_names. cbn.
  constructor; [intros [H|[]]; discriminate H|].
  constructor; [intros []|constructor].
Defined.

(* ================================================================== *)
(** * Persistence *)

Lemma for_each_map {A B C} (f : B -> outcome C) (g : A -> B) (h : A -> C)
    (l : list A) :
  (forall x, f (g x) = Done (h x)) ->
  for_each f (map g l) = Done (map h l).
Proof.
  intros H. induction l as [|x l IH]; [reflexivity|].
  cbn [map for_each]. rewrite H, IH. reflexivity.
Qed.

Lemma map_id_eq {A} (l : list A) : map (fun x => x) l = l.
Proof.
  induction l as [|x l IH]; [reflexivity|]. cbn. rewrite IH. reflexivity.
Qed.

Lemma load_asdict (a : Account.t) :
  Persist.load_account (Persist.asdict a) = Done a.
Proof. destruct a. reflexivity. Qed.

Lemma load_tier_payload (t : Tier.t) :
  Persist.load_tier (Persist.tier_payload t) = Done t.
Proof.
  destruct t as [n pu tg pr accs pref]. unfold Persist.load_tier.
  cbn [Persist.tier_payload Doc.t_accounts Doc.t_name Doc.t_purpose
       Doc.t_target Doc.t_priority Doc.t_preferred_account get item
       Tier.accounts Tier.name Tier.purpose Tier.target Tier.priority
       Tier.preferred_account].
  rewrite (for_each_map _ _ (fun x => x) accs load_asdict), map_id_eq.
  reflexivity.
Qed.

Lemma parse_payload (today today' : string) (p : Plan.t) :
  Persist.parse_plan today' (Persist.payload today p)
  = Done (Plan.mk (Plan.tiers p) today).
Proof.
  unfold Persist.parse_plan, Persist.payload.
  cbn [Doc.tiers Doc.last_updated item get and_then].
  rewrite (for_each_map _ _ (fun x => x) _ load_tier_payload), map_id_eq.
  reflexivity.
Qed.

(** What [save_plan] writes, [load_plan] reads back: the tiers and accounts
    with every field as they were.  The date is the day of the save, not
    the plan's own [last_updated].  Other files are left alone. *)
Theorem load_after_save (today today' path : string) (p : Plan.t)
    (fs : files) :
  Persist.load_plan today' path (Persist.save_plan today p path fs)
  = Done (Plan.mk (Plan.tiers p) today) /\
  forall other : string,
    other <> path ->
    Persist.load_plan today' other (Persist.save_plan today p path fs)
    = Persist.load_plan today' other fs.
Proof.
  unfold Persist.load_plan, Persist.save_plan, files. split.
  - rewrite lookup_insert_eq. apply parse_payload.
  - intros other Hne. rewrite lookup_insert_ne by congruence. reflexivity.
Qed.

Lemma of_account_dict (a : Account.t) :
  Enhanced.account_of_dict (Enhanced.account_dict a) = Done a.
Proof. destruct a. reflexivity. Qed.

Lemma of_tier_dict (t : Tier.t) :
  Enhanced.tier_of_dict (Enhanced.tier_dict t) = Done t.
Proof.
  destruct t as [n pu tg pr accs pref]. unfold Enhanced.tier_of_dict.
  cbn [Enhanced.tier_dict Doc.t_accounts Doc.t_name Doc.t_purpose
       Doc.t_target Doc.t_priority Doc.t_preferred_account get item
       Tier.accounts Tier.name Tier.purpose Tier.target Tier.priority
       Tier.preferred_account].
  rewrite (for_each_map _ _ (fun x => x) accs of_account_dict), map_id_eq.
  reflexivity.
Qed.

Lemma load_tier_dict (t : Tier.t) :
  Persist.load_tier (Enhanced.tier_dict t) = Done t.
Proof. apply load_tier_payload. Qed.

Lemma of_tier_payload (t : Tier.t) :
  Enhanced.tier_of_dict (Persist.tier_payload t) = Done t.
Proof. apply of_tier_dict. Qed.

(** [dict_to_plan] undoes [plan_to_dict]: the plan comes back with every
    field, [last_updated] included.  The two formats are interchangeable:
    [load_plan]'s reader accepts what [plan_to_dict] writes, and
    [dict_to_plan] accepts what [save_plan] writes. *)
Theorem dict_round_trip (today today' : string) (p : Plan.t) :
  Enhanced.dict_to_plan today (Enhanced.plan_to_dict p) = Done p /\
  Persist.parse_plan today (Enhanced.plan_to_dict p) = Done p /\
  Enhanced.dict_to_plan today' (Persist.payload today p)
  = Done (Plan.mk (Plan.tiers p) today).
Proof.
  destruct p as [ts lu].
  unfold Enhanced.dict_to_plan, Persist.parse_plan, Enhanced.plan_to_dict,
    Persist.payload.
  cbn [Doc.tiers Doc.last_updated item get and_then Plan.tiers Plan.last_updated].
  rewrite (for_each_map _ _ (fun x => x) ts of_tier_dict).
  rewrite (for_each_map _ _ (fun x => x) ts load_tier_dict).
  rewrite (for_each_map _ _ (fun x => x) ts of_tier_payload).
  rewrite !map_id_eq. repeat split.
Qed.

Lemma tier_of_dict_accepts (t : Doc.tier) (x : Tier.t) :
  Persist.load_tier t = Done x -> Enhanced.tier_of_dict t = Done x.
Proof.
  unfold Persist.load_tier, Enhanced.tier_of_dict.
  change Enhanced.account_of_dict with Persist.load_account.
  destruct (for_each Persist.load_account _) as [accs| |]; cbn [and_then];
    [|discriminate|discriminate].
  destruct (Doc.t_name t), (Doc.t_purpose t), (Doc.t_target t),
    (Doc.t_priority t); cbn; try discriminate.
  intros H. exact H.
Qed.

Lemma for_each_accepts {A B} (f g : A -> outcome B) (l : list A) :
  (forall x y, f x = Done y -> g x = Done y) ->
  forall ys, for_each f l = Done ys -> for_each g l = Done ys.
Proof.
  intros H. induction l as [|x l IH]; intros ys E; [exact E|].
  cbn [for_each] in *.
  destruct (f x) as [y| |] eqn:Ef; cbn [and_then] in E; [|discriminate..].
  rewrite (H x y Ef). cbn [and_then].
  destruct (for_each f l) as [zs| |]; cbn [and_then] in E; [|discriminate..].
  rewrite (IH zs eq_refl). exact E.
Qed.

(** [dict_to_plan] reads every document that [load_plan] reads, and reads
    the same plan from it; it also reads documents that [load_plan] refuses
    with [KeyError], such as one without the key "tiers". *)
Theorem dict_to_plan_extends_load (today : string) (data : Doc.plan)
    (p : Plan.t) :
  Persist.parse_plan today data = Done p ->
  Enhanced.dict_to_plan today data = Done p.
Proof.
  unfold Persist.parse_plan, Enhanced.dict_to_plan.
  destruct (Doc.tiers data) as [ts|]; cbn [item get and_then]; [|discriminate].
  destruct (for_each Persist.load_tier ts) as [tiers| |] eqn:E;
    cbn [and_then]; [|discriminate..].
  rewrite (for_each_accepts _ _ ts tier_of_dict_accepts tiers E).
  intros H. exact H.
Qed.

Lemma dict_to_plan_extends_load_witness :
  Enhanced.dict_to_plan "2024-01-02"
    (Persist.payload "2024-01-01" unbalanced_plan)
  = Done (Plan.mk (Plan.tiers unbalanced_plan) "2024-01-01").
Proof.
  apply (dict_to_plan_extends_load "2024-01-02"
           (Persist.payload "2024-01-01" unbalanced_plan)).
  reflexivity.
Defined.

(* ================================================================== *)
(** * The commands *)

Lemma usable_tiers (p q : Plan.t) :
  Plan.tiers p = Plan.tiers q -> usable p -> usable q.
Proof.
  unfold usable, distinct_names. intros E. rewrite E. tauto.
Qed.

Lemma sound_after_save (today : string) (p : Plan.t) (fs : files) :
  usable p -> sound_store (Persist.save_plan today p CONFIG_FILE fs).
Proof.
  intros Hu. unfold sound_store, Persist.save_plan, files.
  rewrite lookup_insert_eq. intros today'.
  exists (Plan.mk (Plan.tiers p) today). split; [apply parse_payload|].
  apply (usable_tiers p); [reflexivity|exact Hu].
Qed.

Lemma load_sound (today : string) (fs : files) (p : Plan.t) :
  sound_store fs -> Persist.load_plan today CONFIG_FILE fs = Done p ->
  usable p.
Proof.
  unfold sound_store, Persist.load_plan.
  destruct (fs !! CONFIG_FILE) as [data|]; [|discriminate].
  intros Hs E. destruct (Hs today) as (q & Eq & Hq). congruence.
Qed.

Lemma default_plan_usable (today : string) : usable (default_plan today).
Proof.
  split.
  - repeat constructor.
  - unfold distinct_names. cbn.
    repeat (constructor; [cbn; intuition discriminate|]). constructor.
Qed.

Lemma by_name_found (p : Plan.t) (n : string) (t : Tier.t) :
  Plan.by_name p n = Ok t -> In t (Plan.tiers p) /\ Tier.name t = n.
Proof.
  unfold Plan.by_name.
  destruct (List.find _ _) as [u|] eqn:E; [|discriminate].
  intros H. inversion H; subst. apply List.find_some in E as [Hin Hn].
  apply String.eqb_eq in Hn. auto.
Qed.

Lemma replace_first_names (n : string) (t' : Tier.t) (ts : list Tier.t) :
  Tier.name t' = n ->
  map Tier.name (Cli.replace_first n t' ts) = map Tier.name ts.
Proof.
  intros Hn. induction ts as [|t ts IH]; [reflexivity|].
  cbn [Cli.replace_first]. destruct (String.eqb (Tier.name t) n) eqn:E.
  - apply String.eqb_eq in E. cbn [map]. congruence.
  - cbn [map]. rewrite IH. reflexivity.
Qed.

Lemma replace_first_forall (P : Tier.t -> Prop) (n : string) (t' : Tier.t)
    (ts : list Tier.t) :
  P t' -> Forall P ts -> Forall P (Cli.replace_first n t' ts).
Proof.
  intros Ht. induction 1 as [|t ts Hp Hts IH]; [constructor|].
  cbn [Cli.replace_first]. destruct (String.eqb (Tier.name t) n);
    constructor; assumption.
Qed.

(** A change of one tier in place keeps the plan usable when it keeps the
    tier's name and a valid preferred account. *)
Lemma with_tier_usable (p p' : Plan.t) (n : string)
    (change : Tier.t -> outcome Tier.t) :
  usable p ->
  (forall t t', preferred_ok t = true -> change t = Done t' ->
     preferred_ok t' = true /\ Tier.name t' = Tier.name t) ->
  Cli.with_tier p n change = Done p' ->
  usable p'.
Proof.
  intros [Hok Hnd] Hch. unfold Cli.with_tier.
  destruct (Plan.by_name p n) as [t| |] eqn:Eb; cbn [lift and_then];
    [|discriminate..].
  destruct (change t) as [t'| |] eqn:Ec; cbn [and_then]; [|discriminate..].
  intros H. inversion H; subst. clear H.
  apply by_name_found in Eb as [Hin Hn].
  rewrite List.Forall_forall in Hok.
  destruct (Hch t t' (Hok t Hin) Ec) as [Hok' Hn'].
  split; cbn [Plan.tiers].
  - apply replace_first_forall; [exact Hok'|].
    apply List.Forall_forall. exact Hok.
  - unfold distinct_names. cbn [Plan.tiers].
    rewrite replace_first_names by congruence. exact Hnd.
Qed.

Lemma add_or_update_preferred_ok (t : Tier.t) (n : string) (b : Q)
    (apy : option Q) (notes : string) (w cap : option Q) :
  preferred_ok t = true ->
  preferred_ok (Tier.add_or_update_account t n b apy notes w cap) = true.
Proof.
  intros Hp. unfold preferred_ok, Tier.add_or_update_account in *.
  destruct (Tier.update_first _ _ _ _ _ _ _) as [accs|] eqn:E; simpl.
  - destruct (Tier.preferred_account t) as [p|]; [|reflexivity].
    rewrite (existsb_by_name p _ _ (update_first_names _ _ _ _ _ _ _ _ E)).
    exact Hp.
  - destruct (Tier.preferred_account t) as [p|]; [|reflexivity].
    rewrite existsb_app. apply orb_true_iff in Hp as [Hp|Hp].
    + rewrite Hp. reflexivity.
    + rewrite Hp. simpl. apply orb_true_r.
Qed.

Lemma add_or_update_name (t : Tier.t) (n : string) (b : Q)
    (apy : option Q) (notes : string) (w cap : option Q) :
  Tier.name (Tier.add_or_update_account t n b apy notes w cap) = Tier.name t.
Proof.
  unfold Tier.add_or_update_account.
  destruct (Tier.update_first _ _ _ _ _ _ _); reflexivity.
Qed.

Lemma change_first_names (n : string) (change : Account.t -> Account.t)
    (accs accs' : list Account.t) :
  (forall a, Account.name (change a) = Account.name a) ->
  Cli.change_first n change accs = Some accs' ->
  map Account.name accs' = map Account.name accs.
Proof.
  intros Hc. revert accs'.
  induction accs as [|a accs IH]; intros accs' H; cbn in H; [discriminate|].
  destruct (String.eqb (Account.name a) n).
  - inversion H; subst. cbn. rewrite Hc. reflexivity.
  - destruct (Cli.change_first n change accs) as [rest|]; [|discriminate].
    inversion H; subst. cbn. rewrite (IH rest eq_refl). reflexivity.
Qed.

Lemma set_accounts_preferred_ok (t : Tier.t) (accs : list Account.t) :
  map Account.name accs = map Account.name (Tier.accounts t) ->
  preferred_ok t = true -> preferred_ok (Tier.set_accounts t accs) = true.
Proof.
  intros E Hp. unfold preferred_ok in *. cbn.
  destruct (Tier.preferred_account t) as [p|]; [|reflexivity].
  rewrite (existsb_by_name p _ _ E). exact Hp.
Qed.

Lemma set_preferred_ok (t t' : Tier.t) (n : option string) :
  Tier.set_preferred t n = Ok t' ->
  preferred_ok t' = true /\ Tier.name t' = Tier.name t.
Proof.
  unfold Tier.set_preferred. destruct n as [name|].
  - destruct (existsb _ _) eqn:E; [|discriminate].
    intros H. inversion H; subst. split; [|reflexivity].
    unfold preferred_ok. cbn. rewrite E. apply orb_true_r.
  - intros H. inversion H; subst. split; reflexivity.
Qed.

Lemma nodup_filter_names (keep : Tier.t -> bool) (ts : list Tier.t) :
  List.NoDup (map Tier.name ts) ->
  List.NoDup (map Tier.name (List.filter keep ts)).
Proof.
  induction ts as [|t ts IH]; intros H; [constructor|].
  cbn [map] in H. apply List.NoDup_cons_iff in H as [Hn Hnd].
  cbn [List.filter]. destruct (keep t); [|apply IH; exact Hnd].
  cbn [map]. constructor; [|apply IH; exact Hnd].
  intros Hin. apply Hn. apply in_map_iff in Hin as (u & Hu & Hin).
  apply List.filter_In in Hin as [Hin _]. apply in_map_iff. exists u. auto.
Qed.

Lemma nodup_snoc_name (n : string) (names : list string) :
  List.NoDup names -> ~ In n names -> List.NoDup (names ++ [n]).
Proof.
  intros Hnd Hn. induction Hnd as [|x l Hx _ IH]; cbn.
  - constructor; [intros []|constructor].
  - constructor.
    + intros Hin. apply in_app_or in Hin as [Hin|[->|[]]]; [contradiction|].
      apply Hn. left. reflexivity.
    + apply IH. intros Hin. apply Hn. right. exact Hin.
Qed.

Lemma plan_after (today : string) (c : command) (fs fs' : files) :
  sound_store fs -> run today c fs = Done fs' ->
  exists p, fs' = Persist.save_plan today p CONFIG_FILE fs /\ usable p.
Proof.
  intros Hs. destruct c; cbn [run].
  - unfold Cli.cmd_init. destruct (_ && _); [discriminate|].
    intros H. inversion H; subst. eexists. split; [reflexivity|].
    apply default_plan_usable.
  - unfold Cli.cmd_set_balance.
    destruct (Persist.load_plan _ _ _) as [p| |] eqn:El; cbn [and_then];
      [|discriminate..].
    destruct (Cli.with_tier _ _ _) as [p'| |] eqn:Ew; cbn [and_then];
      [|discriminate..].
    intros H. inversion H; subst. exists p'. split; [reflexivity|].
    eapply with_tier_usable; [exact (load_sound _ _ _ Hs El)| |exact Ew].
    intros t t' Hp E. inversion E; subst.
    split; [apply add_or_update_preferred_ok; exact Hp
           |apply add_or_update_name].
  - unfold Cli.cmd_set_target.
    destruct (Persist.load_plan _ _ _) as [p| |] eqn:El; cbn [and_then];
      [|discriminate..].
    destruct (Cli.with_tier _ _ _) as [p'| |] eqn:Ew; cbn [and_then];
      [|discriminate..].
    intros H. inversion H; subst. exists p'. split; [reflexivity|].
    eapply with_tier_usable; [exact (load_sound _ _ _ Hs El)| |exact Ew].
    intros t t' Hp E. inversion E; subst. split; [exact Hp|reflexivity].
  - unfold Cli.cmd_set_preferred.
    destruct (Persist.load_plan _ _ _) as [p| |] eqn:El; cbn [and_then];
      [|discriminate..].
    destruct (Cli.with_tier _ _ _) as [p'| |] eqn:Ew; cbn [and_then];
      [|discriminate..].
    intros H. inversion H; subst. exists p'. split; [reflexivity|].
    eapply with_tier_usable; [exact (load_sound _ _ _ Hs El)| |exact Ew].
    intros t t' Hp E. cbv beta in E.
    destruct (Tier.set_preferred t _) as [u| |] eqn:Esp; cbn [lift] in E;
      [|discriminate..].
    inversion E; subst. exact (set_preferred_ok _ _ _ Esp).
  - unfold Cli.cmd_set_weight.
    destruct (Persist.load_plan _ _ _) as [p| |] eqn:El; cbn [and_then];
      [|discriminate..].
    destruct (Cli.with_tier _ _ _) as [p'| |] eqn:Ew; cbn [and_then];
      [|discriminate..].
    intros H. inversion H; subst. exists p'. split; [reflexivity|].
    eapply with_tier_usable; [exact (load_sound _ _ _ Hs El)| |exact Ew].
    intros t t' Hp E. cbv beta in E.
    destruct (Cli.change_first _ _ _) as [accs|] eqn:Ec; inversion E; subst.
    + split; [|reflexivity]. apply set_accounts_preferred_ok; [|exact Hp].
      eapply change_first_names; [|exact Ec]. reflexivity.
    + split; [apply add_or_update_preferred_ok; exact Hp
             |apply add_or_update_name].
  - unfold Cli.cmd_set_account_target.
    destruct (Persist.load_plan _ _ _) as [p| |] eqn:El; cbn [and_then];
      [|discriminate..].
    destruct (Cli.with_tier _ _ _) as [p'| |] eqn:Ew; cbn [and_then];
      [|discriminate..].
    intros H. inversion H; subst. exists p'. split; [reflexivity|].
    eapply with_tier_usable; [exact (load_sound _ _ _ Hs El)| |exact Ew].
    intros t t' Hp E. cbv beta in E.
    destruct (Cli.change_first _ _ _) as [accs|] eqn:Ec; inversion E; subst.
    + split; [|reflexivity]. apply set_accounts_preferred_ok; [|exact Hp].
      eapply change_first_names; [|exact Ec]. reflexivity.
    + split; [apply add_or_update_preferred_ok; exact Hp
             |apply add_or_update_name].
  - unfold Cli.cmd_add_tier.
    destruct (Persist.load_plan _ _ _) as [p| |] eqn:El; cbn [and_then];
      [|discriminate..].
    destruct (existsb _ _) eqn:Ee; [discriminate|].
    intros H. inversion H; subst. eexists. split; [reflexivity|].
    destruct (load_sound _ _ _ Hs El) as [Hok Hnd]. split; cbn [Plan.tiers].
    + apply Forall_app. split; [exact Hok|]. repeat constructor.
    + unfold distinct_names in *. cbn [Plan.tiers]. rewrite map_app.
      apply nodup_snoc_name; [exact Hnd|].
      intros Hin. apply in_map_iff in Hin as (u & Hu & Hin).
      apply existsb_none in Ee. rewrite List.Forall_forall in Ee.
      specialize (Ee u Hin). cbn in Ee. rewrite Hu, String.eqb_refl in Ee.
      discriminate.
  - unfold Cli.cmd_remove_tier.
    destruct (Persist.load_plan _ _ _) as [p| |] eqn:El; cbn [and_then];
      [|discriminate..].
    intros H. inversion H; subst. eexists. split; [reflexivity|].
    destruct (load_sound _ _ _ Hs El) as [Hok Hnd]. split; cbn [Plan.tiers].
    + rewrite List.Forall_forall in Hok. apply List.Forall_forall.
      intros t Ht. apply List.filter_In in Ht as [Ht _]. apply Hok, Ht.
    + apply nodup_filter_names. exact Hnd.
Qed.

(** Every command that succeeds leaves a usable plan in the configuration
    file, provided the file was absent or held one before: the commands
    keep the preferred accounts valid and the tier names distinct, and the
    stored plan loads again. *)
Theorem commands_keep_store_sound (today : string) (c : command)
    (fs fs' : files) :
  sound_store fs -> run today c fs = Done fs' ->
  sound_store fs' /\
  forall later : string,
    exists p,
      Persist.load_plan later CONFIG_FILE fs' = Done p /\ usable p.
Proof.
  intros Hs Hrun. destruct (plan_after today c fs fs' Hs Hrun) as (p & -> & Hu).
  split; [apply sound_after_save; exact Hu|]. intros later.
  exists (Plan.mk (Plan.tiers p) today).
  assert (Hu' : usable (Plan.mk (Plan.tiers p) today))
    by (apply (usable_tiers p); [reflexivity|exact Hu]).
  split; [|exact Hu'].
  unfold Persist.load_plan, Persist.save_plan, files.
  rewrite lookup_insert_eq. apply parse_payload.
Qed.

Lemma commands_keep_store_sound_witness :
  sound_store
    (Persist.save_plan "2024-01-01" (default_plan "2024-01-01") CONFIG_FILE ∅) /\
  exists fs',
    run "2024-02-01" (SetPreferredAccount "Tier 1" None)
      (Persist.save_plan "2024-01-01" (default_plan "2024-01-01") CONFIG_FILE ∅)
    = Done fs' /\
    sound_store fs'.
Proof.
  assert (Hs : sound_store
                 (Persist.save_plan "2024-01-01" (default_plan "2024-01-01")
                    CONFIG_FILE ∅))
    by (apply sound_after_save, default_plan_usable).
  split; [exact Hs|]. eexists. split; [vm_compute; reflexivity|].
  apply (commands_keep_store_sound "2024-02-01"
           (SetPreferredAccount "Tier 1" None) _ _ Hs).
  vm_compute. reflexivity.
Defined.

(* ------------------------------------------------------------------ *)
(** ** What a command changes *)

Lemma load_saved (today later : string) (p : Plan.t) (fs : files) :
  Persist.load_plan later CONFIG_FILE (Persist.save_plan today p CONFIG_FILE fs)
  = Done (Plan.mk (Plan.tiers p) today).
Proof.
  unfold Persist.load_plan, Persist.save_plan, files.
  rewrite lookup_insert_eq. apply parse_payload.
Qed.

Lemma find_replace_first (n : string) (t t' : Tier.t) (ts : list Tier.t) :
  List.find (fun u => String.eqb (Tier.name u) n) ts = Some t ->
  exists i,
    ts !! i = Some t /\
    (forall j u, (j < i)%nat -> ts !! j = Some u -> Tier.name u <> n) /\
    Cli.replace_first n t' ts = <[i := t']> ts.
Proof.
  induction ts as [|u ts IH]; cbn [List.find Cli.replace_first]; [discriminate|].
  destruct (String.eqb (Tier.name u) n) eqn:En.
  - intros H. inversion H; subst. exists 0%nat.
    split; [reflexivity|]. split; [|reflexivity].
    intros j v Hj. destruct (Nat.nlt_0_r _ Hj).
  - intros H. destruct (IH H) as (i & Hi & Hfirst & E). exists (S i).
    split; [exact Hi|]. split; [|cbn; rewrite E; reflexivity].
    intros [|j] v Hj Hv.
    + cbn in Hv. inversion Hv; subst. apply String.eqb_neq. exact En.
    + apply (Hfirst j v); [apply Nat.succ_lt_mono; exact Hj|exact Hv].
Qed.

Lemma add_or_update_identity (t : Tier.t) (n : string) (b : Q)
    (apy : option Q) (notes : string) (w cap : option Q) :
  keeps_identity t (Tier.add_or_update_account t n b apy notes w cap).
Proof.
  unfold keeps_identity, Tier.add_or_update_account.
  destruct (Tier.update_first _ _ _ _ _ _ _) as [accs|] eqn:E;
    cbn [Tier.set_accounts Tier.name Tier.purpose Tier.priority Tier.accounts];
    repeat split.
  - exists []. rewrite app_nil_r. eapply update_first_names, E.
  - eexists. rewrite map_app. reflexivity.
Qed.

(** The five commands addressed to a tier load the plan, change that tier
    and save the plan. *)
Lemma run_with_tier (c : command) (n : string) :
  target_tier c = Some n ->
  exists change : Tier.t -> outcome Tier.t,
    (forall today fs,
       run today c fs
       = and_then (Persist.load_plan today CONFIG_FILE fs) (fun plan =>
           and_then (Cli.with_tier plan n change) (fun plan' =>
             Done (Persist.save_plan today plan' CONFIG_FILE fs)))) /\
    (forall t t', change t = Done t' -> keeps_identity t t') /\
    (forall t e, change t = Failed e ->
       e = Raised KeyError /\
       exists a, c = SetPreferredAccount n (Some a) /\
                 existsb (named a) (Tier.accounts t) = false) /\
    (forall t, change t <> Unfinished).
Proof.
  destruct c; cbn [target_tier]; intros H; inversion H; subst; clear H;
    eexists; (split; [intros; reflexivity|]); cbv beta.
  - split; [|split]; [| |]; try discriminate.
    intros t t' E. inversion E; subst. apply add_or_update_identity.
  - split; [|split]; try discriminate.
    intros t t' E. inversion E; subst.
    repeat split. exists []. rewrite app_nil_r. reflexivity.
  - split; [|split].
    + intros t t'. unfold Tier.set_preferred.
      destruct (truthy_opt_str account); [destruct account as [a|]|];
        try destruct (existsb _ _); cbn [lift]; intros E; inversion E; subst;
        repeat split; exists []; rewrite app_nil_r; reflexivity.
    + intros t e. unfold Tier.set_preferred.
      destruct (truthy_opt_str account) eqn:Et; [destruct account as [a|]|];
        try destruct (existsb _ _) eqn:Ee; cbn [lift]; intros E;
        inversion E; subst.
      split; [reflexivity|]. exists a. split; [reflexivity|exact Ee].
    + intros t. unfold Tier.set_preferred.
      destruct (truthy_opt_str account); [destruct account as [a|]|];
        try destruct (existsb _ _); cbn [lift]; discriminate.
  - split; [|split].
    + intros t t' E.
      destruct (Cli.change_first _ _ _) as [accs|] eqn:Ec; inversion E; subst.
      * repeat split. exists []. rewrite app_nil_r.
        eapply change_first_names; [|exact Ec]. reflexivity.
      * apply add_or_update_identity.
    + intros t e. destruct (Cli.change_first _ _ _); discriminate.
    + intros t. destruct (Cli.change_first _ _ _); discriminate.
  - split; [|split].
    + intros t t' E.
      destruct (Cli.change_first _ _ _) as [accs|] eqn:Ec; inversion E; subst.
      * repeat split. exists []. rewrite app_nil_r.
        eapply change_first_names; [|exact Ec]. reflexivity.
      * apply add_or_update_identity.
    + intros t e. destruct (Cli.change_first _ _ _); discriminate.
    + intros t. destruct (Cli.change_first _ _ _); discriminate.
Qed.

(** A command addressed to a tier changes the first tier of that name and
    nothing else: the stored plan is the old one with that tier replaced in
    its place, and the new tier has the old name, purpose and priority, and
    the old accounts' names in their places (no command removes or renames an
    account). *)
Theorem commands_change_one_tier (today later : string) (c : command)
    (n : string) (fs fs' : files) (p : Plan.t) :
  target_tier c = Some n ->
  Persist.load_plan today CONFIG_FILE fs = Done p ->
  run today c fs = Done fs' ->
  exists (i : nat) (t t' : Tier.t),
    Plan.by_name p n = Ok t /\
    Plan.tiers p !! i = Some t /\
    (forall j u, (j < i)%nat -> Plan.tiers p !! j = Some u -> Tier.name u <> n) /\
    Persist.load_plan later CONFIG_FILE fs'
    = Done (Plan.mk (<[i := t']> (Plan.tiers p)) today) /\
    keeps_identity t t'.
Proof.
  intros Hc El. destruct (run_with_tier c n Hc) as (change & Hrun & Hid & _).
  rewrite Hrun, El. cbn [and_then]. unfold Cli.with_tier, Plan.by_name.
  destruct (List.find _ _) as [t|] eqn:Ef; cbn [lift and_then]; [|discriminate].
  destruct (change t) as [t'| |] eqn:Ec; cbn [and_then]; [|discriminate..].
  intros H. inversion H; subst. clear H.
  destruct (find_replace_first n t t' _ Ef) as (i & Hi & Hfirst & E).
  exists i, t, t'. split; [reflexivity|]. split; [exact Hi|].
  split; [exact Hfirst|]. split; [|exact (Hid t t' Ec)].
  rewrite load_saved. cbn [Plan.tiers]. rewrite E. reflexivity.
Qed.

Lemma commands_change_one_tier_witness :
  exists fs',
    run "2024-02-01" (SetBalance "Tier 2" "Treasury" 2500 None "")
      (Persist.save_plan "2024-01-01" (default_plan "2024-01-01") CONFIG_FILE ∅)
    = Done fs' /\
    exists (i : nat) (t t' : Tier.t),
      Plan.by_name (default_plan "2024-01-01") "Tier 2" = Ok t /\
      Plan.tiers (default_plan "2024-01-01") !! i = Some t /\
      (forall j u, (j < i)%nat ->
         Plan.tiers (default_plan "2024-01-01") !! j = Some u ->
         Tier.name u <> "Tier 2") /\
      Persist.load_plan "2024-03-01" CONFIG_FILE fs'
      = Done (Plan.mk (<[i := t']> (Plan.tiers (default_plan "2024-01-01")))
                "2024-02-01") /\
      keeps_identity t t'.
Proof.
  eexists. split; [vm_compute; reflexivity|].
  apply (commands_change_one_tier "2024-02-01" "2024-03-01"
           (SetBalance "Tier 2" "Treasury" 2500 None "")
           "Tier 2"
           (Persist.save_plan "2024-01-01" (default_plan "2024-01-01")
              CONFIG_FILE ∅) _ (default_plan "2024-01-01")).
  - reflexivity.
  - apply load_saved.
  - vm_compute. reflexivity.
Defined.

(* ------------------------------------------------------------------ *)
(** ** Adding and removing tiers *)

Lemma find_none_by_name (n : string) (ts : list Tier.t) :
  existsb (fun t => String.eqb (Tier.name t) n) ts = false ->
  List.find (fun t => String.eqb (Tier.name t) n) ts = None.
Proof.
  induction ts as [|t ts IH]; cbn [existsb List.find]; [reflexivity|].
  destruct (String.eqb (Tier.name t) n); cbn [orb]; [discriminate|exact IH].
Qed.

Lemma filter_other_names (n : string) (ts : list Tier.t) :
  existsb (fun t => String.eqb (Tier.name t) n) ts = false ->
  List.filter (fun t => negb (String.eqb (Tier.name t) n)) ts = ts.
Proof.
  induction ts as [|t ts IH]; cbn [existsb List.filter]; [reflexivity|].
  destruct (String.eqb (Tier.name t) n); cbn [orb negb]; [discriminate|].
  intros H. rewrite (IH H). reflexivity.
Qed.

Lemma find_filter_removed (n : string) (ts : list Tier.t) :
  List.find (fun t => String.eqb (Tier.name t) n)
    (List.filter (fun t => negb (String.eqb (Tier.name t) n)) ts) = None.
Proof.
  induction ts as [|t ts IH]; cbn [List.filter]; [reflexivity|].
  destruct (String.eqb (Tier.name t) n) eqn:E; cbn [negb]; [exact IH|].
  cbn [List.find]. rewrite E. exact IH.
Qed.

Lemma find_filter_other (n m : string) (ts : list Tier.t) :
  m <> n ->
  List.find (fun t => String.eqb (Tier.name t) m)
    (List.filter (fun t => negb (String.eqb (Tier.name t) n)) ts)
  = List.find (fun t => String.eqb (Tier.name t) m) ts.
Proof.
  intros Hmn. induction ts as [|t ts IH]; cbn [List.filter]; [reflexivity|].
  destruct (String.eqb (Tier.name t) n) eqn:E; cbn [negb List.find].
  - apply String.eqb_eq in E.
    destruct (String.eqb (Tier.name t) m) eqn:Em; [|exact IH].
    apply String.eqb_eq in Em. congruence.
  - rewrite IH. reflexivity.
Qed.

(** [add-tier] appends an empty tier under a name that no tier has, and
    [remove-tier] of that name afterwards gives back the tiers that were
    there before. *)
Theorem add_then_remove_tier (today today' later name purpose : string)
    (target : Q) (priority : Z) (fs fs1 : files) :
  run today (AddTier name purpose target priority) fs = Done fs1 ->
  exists (p : Plan.t) (fs2 : files),
    Persist.load_plan today CONFIG_FILE fs = Done p /\
    Plan.by_name p name = Raise KeyError /\
    Persist.load_plan later CONFIG_FILE fs1
    = Done (Plan.mk (Plan.tiers p ++ [Tier.mk name purpose target priority [] None])
              today) /\
    run today' (RemoveTier name) fs1 = Done fs2 /\
    Persist.load_plan later CONFIG_FILE fs2
    = Done (Plan.mk (Plan.tiers p) today').
Proof.
  cbn [run]. unfold Cli.cmd_add_tier, Cli.cmd_remove_tier.
  destruct (Persist.load_plan today CONFIG_FILE fs) as [p| |] eqn:El;
    cbn [and_then]; [|discriminate..].
  destruct (existsb _ _) eqn:Ee; [discriminate|].
  intros H. inversion H; subst. clear H.
  exists p. eexists. split; [reflexivity|].
  split; [unfold Plan.by_name; rewrite (find_none_by_name _ _ Ee); reflexivity|].
  split; [apply load_saved|].
  rewrite load_saved. cbn [and_then Plan.tiers]. split; [reflexivity|].
  rewrite load_saved. cbn [Plan.tiers].
  rewrite List.filter_app, (filter_other_names _ _ Ee).
  cbn [List.filter Tier.name]. rewrite String.eqb_refl. cbn [negb].
  rewrite app_nil_r. reflexivity.
Qed.

Lemma add_then_remove_tier_witness :
  exists fs1 fs2,
    run "2024-02-01" (AddTier "Tier 7" "Travel" 1500 7)
      (Persist.save_plan "2024-01-01" unbalanced_plan CONFIG_FILE ∅)
    = Done fs1 /\
    run "2024-02-02" (RemoveTier "Tier 7") fs1 = Done fs2 /\
    Persist.load_plan "2024-03-01" CONFIG_FILE fs2
    = Done (Plan.mk (Plan.tiers unbalanced_plan) "2024-02-02").
Proof.
  assert (H1 : exists fs1,
             run "2024-02-01" (AddTier "Tier 7" "Travel" 1500 7)
               (Persist.save_plan "2024-01-01" unbalanced_plan CONFIG_FILE ∅)
             = Done fs1)
    by (eexists; vm_compute; reflexivity).
  destruct H1 as [fs1 H1]. exists fs1.
  destruct (add_then_remove_tier "2024-02-01" "2024-02-02" "2024-03-01"
              "Tier 7" "Travel" 1500 7 _ _ H1)
    as (p & fs2 & El & _ & _ & Hr & Hl).
  exists fs2. split; [exact H1|]. split; [exact Hr|].
  rewrite load_saved in El. inversion El; subst. exact Hl.
Defined.

(** [remove-tier] always succeeds on a readable file and removes every tier
    of the name: afterwards the name is unknown ([by_name] raises
    [KeyError]), the commands addressed to that tier fail with [KeyError],
    and the lookups of the other names give what they gave before. *)
Theorem removed_tier_is_gone (today later : string) (n : string)
    (fs : files) (p : Plan.t) :
  Persist.load_plan today CONFIG_FILE fs = Done p ->
  exists (fs1 : files) (p1 : Plan.t),
    run today (RemoveTier n) fs = Done fs1 /\
    Persist.load_plan later CONFIG_FILE fs1 = Done p1 /\
    Plan.by_name p1 n = Raise KeyError /\
    (forall m, m <> n -> Plan.by_name p1 m = Plan.by_name p m) /\
    (forall c, target_tier c = Some n ->
       run later c fs1 = Failed (Raised KeyError)).
Proof.
  intros El. cbn [run]. unfold Cli.cmd_remove_tier. rewrite El. cbn [and_then].
  eexists. eexists. split; [reflexivity|]. split; [apply load_saved|].
  unfold Plan.by_name. cbn [Plan.tiers].
  split; [rewrite find_filter_removed; reflexivity|].
  split; [intros m Hm; rewrite (find_filter_other _ _ _ Hm); reflexivity|].
  intros c Hc. destruct (run_with_tier c n Hc) as (change & Hrun & _).
  rewrite Hrun, load_saved. cbn [and_then]. unfold Cli.with_tier, Plan.by_name.
  cbn [Plan.tiers]. rewrite find_filter_removed. reflexivity.
Qed.

Lemma removed_tier_is_gone_witness :
  exists (fs1 : files) (p1 : Plan.t),
    run "2024-02-01" (RemoveTier "Tier 1")
      (Persist.save_plan "2024-01-01" unbalanced_plan CONFIG_FILE ∅)
    = Done fs1 /\
    Persist.load_plan "2024-03-01" CONFIG_FILE fs1 = Done p1 /\
    Plan.by_name p1 "Tier 1" = Raise KeyError /\
    (forall m, m <> "Tier 1"%string ->
       Plan.by_name p1 m = Plan.by_name (Plan.mk (Plan.tiers unbalanced_plan) "2024-01-01") m) /\
    (forall c, target_tier c = Some "Tier 1"%string ->
       run "2024-03-01" c fs1 = Failed (Raised KeyError)).
Proof.
  apply (removed_tier_is_gone "2024-02-01" "2024-03-01" "Tier 1"
           (Persist.save_plan "2024-01-01" unbalanced_plan CONFIG_FILE ∅)).
  vm_compute. reflexivity.
Defined.

(* ------------------------------------------------------------------ *)
(** ** Reading back what a command wrote *)

Lemma find_replaced (n : string) (t t' : Tier.t) (ts : list Tier.t) :
  Tier.name t' = n ->
  List.find (fun u => String.eqb (Tier.name u) n) ts = Some t ->
  List.find (fun u => String.eqb (Tier.name u) n) (Cli.replace_first n t' ts)
  = Some t'.
Proof.
  intros Hn. induction ts as [|u ts IH]; cbn [List.find Cli.replace_first];
    [discriminate|].
  destruct (String.eqb (Tier.name u) n) eqn:E; cbn [List.find].
  - intros _. rewrite Hn, String.eqb_refl. reflexivity.
  - rewrite E. exact IH.
Qed.

Lemma with_tier_read_back (p : Plan.t) (n : string) (t t' : Tier.t)
    (change : Tier.t -> outcome Tier.t) :
  Plan.by_name p n = Ok t -> change t = Done t' -> Tier.name t' = Tier.name t ->
  exists p', Cli.with_tier p n change = Done p' /\ Plan.by_name p' n = Ok t'.
Proof.
  unfold Cli.with_tier. intros Eb Ec Hn. rewrite Eb. cbn [lift and_then].
  rewrite Ec. cbn [and_then]. eexists. split; [reflexivity|].
  unfold Plan.by_name in *. cbn [Plan.tiers].
  destruct (List.find _ (Plan.tiers p)) as [u|] eqn:Ef; [|discriminate].
  inversion Eb; subst u.
  assert (Hname : Tier.name t = n).
  { apply List.find_some in Ef as [_ E]. apply String.eqb_eq in E. exact E. }
  rewrite (find_replaced n t t' _ (eq_trans Hn Hname) Ef). reflexivity.
Qed.

Lemma change_first_found (n : string) (change : Account.t -> Account.t)
    (accs : list Account.t) :
  (forall a, Account.name (change a) = Account.name a) ->
  match List.find (named n) accs with
  | Some a =>
      exists accs', Cli.change_first n change accs = Some accs' /\
                    List.find (named n) accs' = Some (change a)
  | None => Cli.change_first n change accs = None
  end.
Proof.
  intros Hc. induction accs as [|a accs IH];
    cbn [List.find Cli.change_first]; [reflexivity|].
  unfold named at 1. destruct (String.eqb (Account.name a) n) eqn:E.
  - eexists. split; [reflexivity|]. cbn [List.find]. unfold named at 1.
    rewrite Hc, E. reflexivity.
  - destruct (List.find (named n) accs) as [x|].
    + destruct IH as (accs' & -> & Hf). eexists. split; [reflexivity|].
      cbn [List.find]. unfold named at 1. rewrite E. exact Hf.
    + rewrite IH. reflexivity.
Qed.

Lemma update_first_not_found (n : string) (b : Q) (apy : option Q)
    (notes : string) (w cap : option Q) (accs : list Account.t) :
  List.find (named n) accs = None ->
  Tier.update_first n b apy notes w cap accs = None.
Proof.
  induction accs as [|a accs IH]; [reflexivity|].
  cbn [List.find Tier.update_first]. unfold named at 1.
  destruct (String.eqb (Account.name a) n); [discriminate|].
  intros Hf. rewrite (IH Hf). reflexivity.
Qed.

Lemma find_snoc_account (n : string) (x : Account.t) (accs : list Account.t) :
  Account.name x = n ->
  List.find (named n) accs = None ->
  List.find (named n) (accs ++ [x]) = Some x.
Proof.
  intros Hn. induction accs as [|a accs IH]; cbn [app List.find].
  - intros _. unfold named. rewrite Hn, String.eqb_refl. reflexivity.
  - unfold named at 1 3. destruct (String.eqb (Account.name a) n);
      [discriminate|exact IH].
Qed.

Lemma add_new_account (t : Tier.t) (n : string) (b : Q) (apy : option Q)
    (notes : string) (w cap : option Q) :
  List.find (named n) (Tier.accounts t) = None ->
  List.find (named n)
    (Tier.accounts (Tier.add_or_update_account t n b apy notes w cap))
  = Some (Account.mk n b (or_else apy 0) notes (or_else w 1) cap).
Proof.
  unfold Tier.add_or_update_account. intros Hf.
  rewrite (update_first_not_found _ _ _ _ _ _ _ Hf).
  cbn [Tier.set_accounts Tier.accounts].
  apply find_snoc_account; [reflexivity|exact Hf].
Qed.

(** [set-account-weight] and [set-account-target] on a tier of the plan
    succeed, and the stored account reads back as follows.  An account that
    was there keeps its other fields and has the new weight (the new cap).  An
    account that was not there is created with balance 0 and the new cap, but
    with weight 1 when the weight given is 0: a new account cannot be given
    the weight 0. *)
Theorem account_settings_read_back (today later tier account : string)
    (x : Q) (fs : files) (p : Plan.t) (t : Tier.t) :
  Persist.load_plan today CONFIG_FILE fs = Done p ->
  Plan.by_name p tier = Ok t ->
  (exists fs' p' t',
     run today (SetAccountWeight tier account x) fs = Done fs' /\
     Persist.load_plan later CONFIG_FILE fs' = Done p' /\
     Plan.by_name p' tier = Ok t' /\
     List.find (named account) (Tier.accounts t')
     = Some match List.find (named account) (Tier.accounts t) with
            | Some a =>
                Account.mk (Account.name a) (Account.balance a)
                  (Account.apy_pct a) (Account.notes a) x
                  (Account.account_target a)
            | None =>
                Account.mk account 0 0 "" (if Qeq_bool x 0 then 1 else x) None
            end) /\
  (exists fs' p' t',
     run today (SetAccountTarget tier account x) fs = Done fs' /\
     Persist.load_plan later CONFIG_FILE fs' = Done p' /\
     Plan.by_name p' tier = Ok t' /\
     List.find (named account) (Tier.accounts t')
     = Some match List.find (named account) (Tier.accounts t) with
            | Some a =>
                Account.mk (Account.name a) (Account.balance a)
                  (Account.apy_pct a) (Account.notes a)
                  (Account.alloc_weight a) (Some x)
            | None => Account.mk account 0 0 "" 1 (Some x)
            end).
Proof.
  intros El Eb. split; cbn [run].
  - unfold Cli.cmd_set_weight. rewrite El. cbn [and_then].
    set (ch := fun a : Account.t =>
                 Account.mk (Account.name a) (Account.balance a)
                   (Account.apy_pct a) (Account.notes a) x
                   (Account.account_target a)).
    pose proof (change_first_found account ch (Tier.accounts t)
                  (fun a => eq_refl)) as Hcf.
    destruct (List.find (named account) (Tier.accounts t)) as [a|] eqn:Ef.
    + destruct Hcf as (accs' & Ec & Hf).
      destruct (with_tier_read_back p tier t (Tier.set_accounts t accs')
                  (fun t0 =>
                     match Cli.change_first account ch (Tier.accounts t0) with
                     | Some accs => Done (Tier.set_accounts t0 accs)
                     | None =>
                         Done (Tier.add_or_update_account t0 account 0 None ""
                                 (Some x) None)
                     end) Eb) as (p' & Ew & Eb');
        [rewrite Ec; reflexivity|reflexivity|].
      rewrite Ew. cbn [and_then]. do 3 eexists.
      split; [reflexivity|]. split; [apply load_saved|].
      split; [exact Eb'|exact Hf].
    + destruct (with_tier_read_back p tier t
                  (Tier.add_or_update_account t account 0 None "" (Some x) None)
                  (fun t0 =>
                     match Cli.change_first account ch (Tier.accounts t0) with
                     | Some accs => Done (Tier.set_accounts t0 accs)
                     | None =>
                         Done (Tier.add_or_update_account t0 account 0 None ""
                                 (Some x) None)
                     end) Eb) as (p' & Ew & Eb');
        [rewrite Hcf; reflexivity|apply add_or_update_name|].
      rewrite Ew. cbn [and_then]. do 3 eexists.
      split; [reflexivity|]. split; [apply load_saved|].
      split; [exact Eb'|]. rewrite (add_new_account _ _ _ _ _ _ _ Ef).
      reflexivity.
  - unfold Cli.cmd_set_account_target. rewrite El. cbn [and_then].
    set (ch := fun a : Account.t =>
                 Account.mk (Account.name a) (Account.balance a)
                   (Account.apy_pct a) (Account.notes a)
                   (Account.alloc_weight a) (Some x)).
    pose proof (change_first_found account ch (Tier.accounts t)
                  (fun a => eq_refl)) as Hcf.
    destruct (List.find (named account) (Tier.accounts t)) as [a|] eqn:Ef.
    + destruct Hcf as (accs' & Ec & Hf).
      destruct (with_tier_read_back p tier t (Tier.set_accounts t accs')
                  (fun t0 =>
                     match Cli.change_first account ch (Tier.accounts t0) with
                     | Some accs => Done (Tier.set_accounts t0 accs)
                     | None =>
                         Done (Tier.add_or_update_account t0 account 0 None ""
                                 None (Some x))
                     end) Eb) as (p' & Ew & Eb');
        [rewrite Ec; reflexivity|reflexivity|].
      rewrite Ew. cbn [and_then]. do 3 eexists.
      split; [reflexivity|]. split; [apply load_saved|].
      split; [exact Eb'|exact Hf].
    + destruct (with_tier_read_back p tier t
                  (Tier.add_or_update_account t account 0 None "" None (Some x))
                  (fun t0 =>
                     match Cli.change_first account ch (Tier.accounts t0) with
                     | Some accs => Done (Tier.set_accounts t0 accs)
                     | None =>
                         Done (Tier.add_or_update_account t0 account 0 None ""
                                 None (Some x))
                     end) Eb) as (p' & Ew & Eb');
        [rewrite Hcf; reflexivity|apply add_or_update_name|].
      rewrite Ew. cbn [and_then]. do 3 eexists.
      split; [reflexivity|]. split; [apply load_saved|].
      split; [exact Eb'|]. rewrite (add_new_account _ _ _ _ _ _ _ Ef).
      reflexivity.
Qed.

Lemma account_settings_read_back_witness :
  exists fs' p' t',
    run "2024-02-01" (SetAccountWeight "Tier 1" "Brokerage" 0)
      (Persist.save_plan "2024-01-01" unbalanced_plan CONFIG_FILE ∅)
    = Done fs' /\
    Persist.load_plan "2024-03-01" CONFIG_FILE fs' = Done p' /\
    Plan.by_name p' "Tier 1" = Ok t' /\
    List.find (named "Brokerage") (Tier.accounts t')
    = Some (Account.mk "Brokerage" 0 0 "" 1 None).
Proof.
  apply (proj1 (account_settings_read_back "2024-02-01" "2024-03-01"
                  "Tier 1" "Brokerage" 0
                  (Persist.save_plan "2024-01-01" unbalanced_plan CONFIG_FILE ∅)
                  (Plan.mk (Plan.tiers unbalanced_plan) "2024-01-01")
                  (Tier.mk "Tier 1" "Buffer" 100 1
                     [Account.mk "Checking" 150 0 "" 1 None] None)
                  (load_saved _ _ _ _) eq_refl)).
Defined.

(* ------------------------------------------------------------------ *)
(** ** How the commands fail *)

Lemma find_some_by_name (n : string) (ts : list Tier.t) :
  existsb (fun t => String.eqb (Tier.name t) n) ts = true ->
  exists t, List.find (fun t => String.eqb (Tier.name t) n) ts = Some t.
Proof.
  induction ts as [|t ts IH]; cbn [existsb List.find]; [discriminate|].
  destruct (String.eqb (Tier.name t) n); cbn [orb]; [eauto|exact IH].
Qed.

(** On a readable configuration file a command fails in these ways only:
    [init] without [--force] and [add-tier] of a name in use exit with
    [SystemExit]; a command addressed to a tier raises [KeyError] when no
    tier has the name, and [set-preferred-account] also when the tier has
    no account of the name given.  [remove-tier] does not fail, and no
    command raises [StopIteration] or fails to finish. *)
Theorem commands_fail_cleanly (today : string) (c : command) (fs : files)
    (p : Plan.t) :
  Persist.load_plan today CONFIG_FILE fs = Done p ->
  run today c fs <> Unfinished /\
  forall e, run today c fs = Failed e ->
    (e = SystemExit /\
     (c = Init false \/
      exists n purpose target priority t,
        c = AddTier n purpose target priority /\ Plan.by_name p n = Ok t)) \/
    (e = Raised KeyError /\
     exists n, target_tier c = Some n /\
       (Plan.by_name p n = Raise KeyError \/
        exists a t,
          c = SetPreferredAccount n (Some a) /\ Plan.by_name p n = Ok t /\
          existsb (named a) (Tier.accounts t) = false)).
Proof.
  intros El.
  destruct (target_tier c) as [n|] eqn:Hc.
  - destruct (run_with_tier c n Hc) as (change & Hrun & _ & Hfail & Hfin).
    rewrite Hrun, El. cbn [and_then]. unfold Cli.with_tier.
    destruct (Plan.by_name p n) as [t|e0|] eqn:Eb; cbn [lift and_then].
    + specialize (Hfail t). specialize (Hfin t).
      destruct (change t) as [t'|e0|]; cbn [and_then].
      * split; [discriminate|]. intros e H. discriminate H.
      * split; [discriminate|]. intros e H. inversion H; subst e0.
        destruct (Hfail e eq_refl) as (-> & a & -> & Ha).
        right. split; [reflexivity|]. exists n. split; [reflexivity|].
        right. exists a, t. cbn [target_tier] in Hc.
        split; [reflexivity|]. split; [first [exact Eb|reflexivity]|exact Ha].
      * contradiction.
    + split; [discriminate|]. intros e H. inversion H; subst e.
      assert (e0 = KeyError) as ->
        by (unfold Plan.by_name in Eb; destruct (List.find _ _);
            inversion Eb; reflexivity).
      right. split; [reflexivity|]. exists n. split; [reflexivity|].
      left. first [exact Eb|reflexivity].
    + unfold Plan.by_name in Eb. destruct (List.find _ _); discriminate Eb.
  - destruct c; cbn [target_tier] in Hc; try discriminate Hc; cbn [run].
    + unfold Cli.cmd_init.
      destruct (Cli.exists_file CONFIG_FILE fs && negb force) eqn:E.
      * split; [discriminate|]. intros e H. inversion H; subst.
        left. split; [reflexivity|]. left.
        apply andb_true_iff in E as [_ E]. destruct force; [discriminate|].
        reflexivity.
      * split; [discriminate|]. intros e H. discriminate H.
    + unfold Cli.cmd_add_tier. rewrite El. cbn [and_then].
      destruct (existsb _ _) eqn:E.
      * split; [discriminate|]. intros e H. inversion H; subst.
        left. split; [reflexivity|]. right.
        destruct (find_some_by_name _ _ E) as [t Ht].
        exists name, purpose, target, priority, t. split; [reflexivity|].
        unfold Plan.by_name. rewrite Ht. reflexivity.
      * split; [discriminate|]. intros e H. discriminate H.
    + unfold Cli.cmd_remove_tier. rewrite El. cbn [and_then].
      split; [discriminate|]. intros e H. discriminate H.
Qed.

Lemma commands_fail_cleanly_witness :
  run "2024-02-01" (AddTier "Tier 1" "Again" 10 9)
    (Persist.save_plan "2024-01-01" unbalanced_plan CONFIG_FILE ∅)
  <> Unfinished /\
  forall e,
    run "2024-02-01" (AddTier "Tier 1" "Again" 10 9)
      (Persist.save_plan "2024-01-01" unbalanced_plan CONFIG_FILE ∅)
    = Failed e ->
    (e = SystemExit /\
     (AddTier "Tier 1" "Again" 10 9 = Init false \/
      exists n purpose target priority t,
        AddTier "Tier 1" "Again" 10 9 = AddTier n purpose target priority /\
        Plan.by_name (Plan.mk (Plan.tiers unbalanced_plan) "2024-01-01") n
        = Ok t)) \/
    (e = Raised KeyError /\
     exists n, target_tier (AddTier "Tier 1" "Again" 10 9) = Some n /\
       (Plan.by_name (Plan.mk (Plan.tiers unbalanced_plan) "2024-01-01") n
        = Raise KeyError \/
        exists a t,
          AddTier "Tier 1" "Again" 10 9 = SetPreferredAccount n (Some a) /\
          Plan.by_name (Plan.mk (Plan.tiers unbalanced_plan) "2024-01-01") n
          = Ok t /\
          existsb (named a) (Tier.accounts t) = false)).
Proof.
  apply (commands_fail_cleanly "2024-02-01" (AddTier "Tier 1" "Again" 10 9)
           (Persist.save_plan "2024-01-01" unbalanced_plan CONFIG_FILE ∅)
           (Plan.mk (Plan.tiers unbalanced_plan) "2024-01-01")).
  vm_compute. reflexivity.
Defined.

(* ================================================================== *)
(** * Properties of the engine in binary64 *)

Module F64Facts.

Import PrimFloat SpecFloat FloatOps FloatAxioms.
Import F64.

#[local] Set Warnings "-inexact-float".

(** ** Comparisons *)












(** ** [allocate_into_accounts]: exceptions and the degenerate states *)

Lemma find_by_name (p : string) (l : list Account.t) :
  if existsb (fun a => String.eqb (Account.name a) p) l
  then exists pa,
         List.find (fun a => String.eqb (Account.name a) p) l = Some pa /\
         In pa l
  else List.find (fun a => String.eqb (Account.name a) p) l = None.
Proof.
  induction l as [|a l IH]; [reflexivity|]. cbn [existsb List.find].
  destruct (String.eqb (Account.name a) p); cbn [orb].
  - exists a. split; [reflexivity|left; reflexivity].
  - destruct (existsb _ l); [|exact IH].
    destruct IH as (pa & E & Hin). exists pa. split; [exact E|right; exact Hin].
Qed.

(** The preferred-account block returns when the preferred account is unset
    or exists: no move, or one move to the preferred account. *)
Lemma preferred_step_returns (t : Tier.t) (r : float) :
  preferred_ok t = true ->
  Tier.preferred_step t r = Ok ([], r) \/
  exists pa,
    In pa (Tier.accounts t) /\ lt 0 (Account.remaining_room pa) = true /\
    lt 0 (min r (Account.remaining_room pa)) = true /\
    Tier.preferred_step t r
    = Ok ([(Account.name pa, round2 (min r (Account.remaining_room pa)))],
          (r - min r (Account.remaining_room pa))%float).
Proof.
  unfold preferred_ok, Tier.preferred_step. intros Hok.
  destruct (Tier.preferred_account t) as [p|]; [|left; reflexivity].
  cbv beta iota delta [truthy_opt_str].
  destruct (truthy_str p); [|left; reflexivity].
  cbn [negb orb] in Hok.
  pose proof (find_by_name p (Tier.accounts t)) as Hf. rewrite Hok in Hf.
  destruct Hf as (pa & -> & Hin).
  destruct (lt 0 (Account.remaining_room pa)) eqn:Hroom; [|left; reflexivity].
  destruct (lt 0 (min r (Account.remaining_room pa))) eqn:Hadd;
    [|left; reflexivity].
  right. exists pa. auto.
Qed.


(** The loop itself raises nothing, whatever the numbers are. *)
Lemma distribute_never_raises (fuel : nat) (t : Tier.t) :
  forall (r : float) (moves : list move) (e : exn),
    Tier.distribute fuel t r moves <> Raise e.
Proof.
  induction fuel as [|fuel IH]; intros r moves e; cbn [Tier.distribute];
    [discriminate|].
  destruct (lt 0 r); [|discriminate].
  destruct (Tier.candidates t) as [|a cands]; [discriminate|].
  destruct (le _ 0); [discriminate|].
  destruct (Tier.weighted_pass _ _ _ _ _) as [[moves' r'] progressed].
  destruct progressed; [apply IH|discriminate].
Qed.

Lemma allocate_unfold (fuel : nat) (t : Tier.t) (amount : float) :
  Tier.allocate_into_accounts fuel t amount
  = if le (max 0 amount) 0 || match Tier.accounts t with [] => true | _ => false end
    then Ok []
    else
      bind (Tier.preferred_step t (max 0 amount)) (fun '(moves, r) =>
        bind (Tier.distribute fuel t r moves) (fun '(moves', _) => Ok moves')).
Proof.
  unfold Tier.allocate_into_accounts, Tier.allocate_with_pool.
  destruct (le (max 0 amount) 0 || _); [reflexivity|].
  destruct (Tier.preferred_step t (max 0 amount)) as [[moves r]| |]; reflexivity.
Qed.




(* ------------------------------------------------------------------ *)
(** ** What a move takes off the pool *)










(* ------------------------------------------------------------------ *)
(** ** The amounts of a call and the pool it leaves *)





(* ------------------------------------------------------------------ *)
(** ** The tier-level plan *)








(* ------------------------------------------------------------------ *)
(** ** The forecast *)









(* ------------------------------------------------------------------ *)
(** ** [set_preferred] as the guard of the allocation *)

Lemma allocate_no_exception (t : Tier.t) :
  preferred_ok t = true ->
  forall (fuel : nat) (amount : float) (e : exn),
    Tier.allocate_into_accounts fuel t amount <> Raise e.
Proof.
  intros Hok fuel amount e. rewrite allocate_unfold.
  destruct (le (max 0 amount) 0 || _); [discriminate|].
  destruct (preferred_step_returns t (max 0 amount) Hok)
    as [->|(pa & _ & _ & _ & ->)]; cbn [bind];
    (destruct (Tier.distribute fuel t _ _) as [[m r]|e'|] eqn:Ed;
     [discriminate|exfalso; exact (distribute_never_raises _ _ _ _ _ Ed)
     |discriminate]).
Qed.

(** [set_preferred] accepts [None] and the name of an account of the tier,
    and changes the preferred account only; on the tier it leaves,
    [allocate_into_accounts] raises nothing, whatever the amount and however
    long it runs.  Any other name is refused ([KeyError]). *)
Theorem set_preferred_guards_allocation (t : Tier.t) (n : option string) :
  match Tier.set_preferred t n with
  | Some t' =>
      t' = Tier.mk (Tier.name t) (Tier.purpose t) (Tier.target t)
             (Tier.priority t) (Tier.accounts t) n /\
      forall (fuel : nat) (amount : float) (e : exn),
        Tier.allocate_into_accounts fuel t' amount <> Raise e
  | None =>
      exists name, n = Some name /\
        Forall (fun a => Account.name a <> name) (Tier.accounts t)
  end.
Proof.
  unfold Tier.set_preferred. destruct n as [name|].
  - destruct (existsb _ _) eqn:E.
    + split; [reflexivity|]. apply allocate_no_exception.
      unfold preferred_ok. cbn [Tier.preferred_account Tier.accounts].
      rewrite E. apply orb_true_r.
    + exists name. split; [reflexivity|].
      apply List.Forall_forall. intros a Ha Hn.
      assert (existsb (fun a => String.eqb (Account.name a) name)
                (Tier.accounts t) = true) as Hex.
      { apply existsb_exists. exists a. split; [exact Ha|].
        rewrite Hn. apply String.eqb_refl. }
      congruence.
  - split; [reflexivity|]. apply allocate_no_exception. reflexivity.
Qed.


End F64Facts.
